(** * An offline "agentic data scientist": the control loop and its policies

    A shallow embedding of the Python sources

      - [agents/planner.py]          ([create_plan])
      - [agents/reflector.py]        ([reflect], [should_replan],
                                      [apply_replan_strategy])
      - [agents/memory.py]           ([JSONMemory])
      - [tools/data_profiler.py]     ([infer_target_column],
                                      [dataset_fingerprint], [profile_dataset])
      - [tools/modelling.py]         ([select_models], [train_models])
      - [tools/evaluation.py]        ([evaluate_best])
      - [agentic_data_scientist.py]  (the [while True] loop of [run])

    Conventions of the embedding.

      - A number is a rational ([Q]).  A metric that scikit-learn returns
        is taken as the rational it denotes, and the thresholds it is
        compared with as the decimals written in the code.  The quotient of
        class counts that [profile_dataset] forms and rounds is computed as
        the code computes it, in binary64 floats ([Py.binary64]).
      - A [dict] whose keys are fixed by the code is a record; a key the code
        reads with [.get] is a field that may be [Missing].  A [dict] keyed
        by data (fingerprints, JSON objects, the file system, the object
        store) is a [gmap].
      - Library calls whose result the control flow only passes around
        (scikit-learn fitting and scoring, the interpreter's string hash,
        the clock) are parameters of the definitions that use them.
      - An exception is the [None] of an [option] result.

    The first part of the file holds the definitions, one module per source
    file; the second part holds the properties of the specification, the
    third part further properties of the code. *)

From Stdlib Require Import QArith Qround Qabs Qpower Lqa.
From stdpp Require Import gmap strings list fin_maps pretty sorting.

#[local] Set Warnings "-register-all".
#[local] Open Scope Z_scope.

(* ===================================================================== *)
(** * Part I: the embedding                                              *)
(* ===================================================================== *)

(** ** Python built-ins used by the sources *)

Module Py.

(** The value found under a dictionary key: the key may be missing, may be
    bound to [None], or bound to a proper value. *)
Inductive entry (A : Type) : Type :=
| Missing
| IsNone
| Val (a : A).
Arguments Missing {A}.
Arguments IsNone {A}.
Arguments Val {A} a.

(** [a < b] and [a >= b] on numbers. *)
Definition lt (a b : Q) : bool := negb (Qle_bool b a).
Definition ge (a b : Q) : bool := Qle_bool b a.

(** Truth value of a number: zero is false. *)
Definition truthy (q : Q) : bool := negb (Qeq_bool q 0).

(** [d.get(k) or dflt] for a numeric entry. *)
Definition get_or (e : entry Q) (dflt : Q) : Q :=
  match e with
  | Val q => if truthy q then q else dflt
  | IsNone | Missing => dflt
  end.

(** [d.get(k, dflt)] for a field that is missing or holds a value. *)
Definition get_default {A : Type} (o : option A) (dflt : A) : A :=
  match o with
  | Some a => a
  | None => dflt
  end.

(** [l.index(x)]: position of the first occurrence; [None] is the
    [ValueError] raised when there is none. *)
Fixpoint index (x : string) (l : list string) : option nat :=
  match l with
  | [] => None
  | y :: l' => if String.eqb y x then Some O else S <$> index x l'
  end.

(** [l.insert(i, x)] for [i >= 0]; past the end it appends. *)
Definition insert {A : Type} (i : nat) (x : A) (l : list A) : list A :=
  take i l ++ x :: drop i l.

(** [sub in s] on strings. *)
Fixpoint contains (sub s : string) : bool :=
  String.prefix sub s ||
  match s with
  | EmptyString => false
  | String _ s' => contains sub s'
  end.

(** [sep.join(parts)]. *)
Definition join (sep : string) (parts : list string) : string :=
  String.concat sep parts.

(** The nearest integer, ties going to the even one. *)
Definition round_half_even (q : Q) : Z :=
  let f := Qfloor q in
  let r := (q - inject_Z f)%Q in
  match (r ?= 1 # 2)%Q with
  | Lt => f
  | Gt => f + 1
  | Eq => if Z.even f then f else f + 1
  end.

(** The exponent of the binade of a positive number:
    [2^e <= x < 2^(e+1)]. *)
Definition ilog2 (x : Q) : Z :=
  let k := Z.log2 (Qnum x) - Z.log2 (Zpos (Qden x)) in
  if Qle_bool (2 ^ k) x then k else k - 1.

(** The float nearest to a real number: an IEEE 754 binary64 has 53
    significant bits, and a tie goes to the even significand.  The exponent
    range is left unbounded: the numbers rounded here are row counts and
    their quotients. *)
Definition binary64_pos (x : Q) : Q :=
  let e := ilog2 x - 52 in
  Qred (inject_Z (round_half_even (x * 2 ^ (- e))) * 2 ^ e).

Definition binary64 (x : Q) : Q :=
  match Qnum x with
  | Z0 => 0
  | Zpos _ => binary64_pos x
  | Zneg _ => - binary64_pos (- x)
  end.

(** The conversion of an integer to a float. *)
Definition float (n : Z) : Q := binary64 (inject_Z n).

(** [a / b] on floats. *)
Definition truediv (a b : Q) : Q := binary64 (a / b).

(** The decimal with three digits after the point that is nearest to [q]. *)
Definition decimal3 (q : Q) : Q :=
  Qred (round_half_even (q * 1000) # 1000).

(** [round(x, 3)] on a float: the nearest three-digit decimal, as a float. *)
Definition round3 (x : Q) : Q := binary64 (decimal3 x).

(** Three digits, zero padded. *)
Definition pad3 (n : Z) : string :=
  let s := pretty n in
  if n <? 10 then "00" +:+ s else if n <? 100 then "0" +:+ s else s.

(** [f"{x:.3f}"]. *)
Definition format_3f (q : Q) : string :=
  let n := round_half_even (Qabs q * 1000) in
  let body := pretty (n / 1000) +:+ "." +:+ pad3 (n mod 1000) in
  if lt q 0 then "-" +:+ body else body.

(** [s.lower()], for names written in ASCII. *)
Definition lower_char (c : Ascii.ascii) : Ascii.ascii :=
  let n := Ascii.nat_of_ascii c in
  if ((65 <=? n) && (n <=? 90))%nat then Ascii.ascii_of_nat (n + 32) else c.

Fixpoint lower (s : string) : string :=
  match s with
  | EmptyString => EmptyString
  | String c s' => String (lower_char c) (lower s')
  end.

End Py.

Import Py.

(** ** The dataset profile

    The dictionary built by [profile_dataset].  It is generic in the way the
    [notes] list is held: by value ([list string]) where the code only reads
    it, by reference into the object store where the code copies and
    appends.  The keys [missing_pct], [target_dtype], [feature_types],
    [n_unique_by_col] and [class_counts] are read by the preprocessing and
    report code only and are left out. *)

Record ProfileOf (N : Type) : Type := mkProfile {
  shape_rows : Z;
  shape_cols : Z;
  columns : list string;
  target : string;
  is_classification : bool;
  imbalance_ratio : entry Q;
  notes : option N;
}.
Arguments mkProfile {N}.
Arguments shape_rows {N}.
Arguments shape_cols {N}.
Arguments columns {N}.
Arguments target {N}.
Arguments is_classification {N}.
Arguments imbalance_ratio {N}.
Arguments notes {N}.

Abbreviation Profile := (ProfileOf (list string)).

Definition set_notes {N M : Type} (p : ProfileOf N) (n : option M) : ProfileOf M :=
  mkProfile (shape_rows p) (shape_cols p) (columns p) (target p)
            (is_classification p) (imbalance_ratio p) n.

(** ** JSON values: what the memory file and a memory record hold *)

Inductive json : Type :=
| JNull
| JBool (b : bool)
| JNum (q : Q)
| JStr (s : string)
| JArr (l : list json)
| JObj (m : gmap string json).

(** The truth value of a JSON value as Python holds it: [None], [False],
    zero, and the empty string, list and dict are false. *)
Definition json_truthy (j : json) : bool :=
  match j with
  | JNull => false
  | JBool b => b
  | JNum q => truthy q
  | JStr s => negb (String.eqb s "")
  | JArr l => negb (Nat.eqb (length l) 0)
  | JObj m => negb (Nat.eqb (size m) 0)
  end.

(** ** agents/planner.py *)

Module Planner.

Definition base_plan : list string :=
  [ "profile_dataset"; "build_preprocessor"; "select_models"; "train_models";
    "evaluate"; "reflect"; "write_report" ]%string.

(** [create_plan(dataset_profile, memory_hint)]; the hint is [JNull] for
    Python's [None].  The result is [None] only if [plan.index] raises. *)
Definition create_plan (dataset_profile : Profile)
    (memory_hint : json) : option (list string) :=
  let plan := base_plan in
  let imb := get_or (imbalance_ratio dataset_profile) 1 in
  if ge imb 3 then
    i ← index "train_models" plan;
    Some (insert i "consider_imbalance_strategy"%string plan)
  else Some plan.

End Planner.

(** ** The object store

    Python lists and dictionaries are mutable objects reached through
    references.  [apply_replan_strategy] copies its arguments before it
    appends to them, so its embedding keeps the store: a finite map from
    locations to objects, threaded through a state-and-error monad. *)

Module Store.

Definition loc := positive.

Inductive obj : Type :=
| OList (xs : list string)
| ODict (d : ProfileOf loc).

Abbreviation heap := (gmap loc obj).

Definition M (A : Type) : Type := heap -> option (A * heap).

#[global] Instance M_ret : MRet M := fun A a h => Some (a, h).
#[global] Instance M_bind : MBind M := fun A B f m h =>
  match m h with
  | Some (a, h') => f a h'
  | None => None
  end.

(** A new object at a location the store does not use yet. *)
Definition alloc (o : obj) : M loc := fun h =>
  let l := fresh (dom h) in Some (l, <[l := o]> h).

Definition read_list (l : loc) : M (list string) := fun h =>
  match h !! l with
  | Some (OList xs) => Some (xs, h)
  | _ => None
  end.

Definition read_dict (l : loc) : M (ProfileOf loc) := fun h =>
  match h !! l with
  | Some (ODict d) => Some (d, h)
  | _ => None
  end.

Definition write (l : loc) (o : obj) : M unit := fun h =>
  Some (tt, <[l := o]> h).

(** [list(x)]: a new list with the elements of [x]. *)
Definition list_copy (x : loc) : M loc :=
  xs ← read_list x; alloc (OList xs).

(** [dict(x)]: a new dictionary with the bindings of [x] (a shallow copy:
    the values are shared). *)
Definition dict_copy (x : loc) : M loc :=
  d ← read_dict x; alloc (ODict d).

(** [x.append(s)]: in place. *)
Definition list_append (x : loc) (s : string) : M unit :=
  xs ← read_list x; write x (OList (xs ++ [s])).

(** [x.get("notes", [])]: the default list is built before the call. *)
Definition dict_get_notes (x : loc) : M loc :=
  dflt ← alloc (OList []);
  d ← read_dict x;
  mret (get_default (notes d) dflt).

(** [x["notes"] = n]: in place. *)
Definition dict_set_notes (x : loc) (n : loc) : M unit :=
  d ← read_dict x; write x (ODict (set_notes d (Some n))).

(** The notes list a profile dictionary holds in store [h]: the empty list
    when the key is missing. *)
Definition notes_in (h : heap) (d : ProfileOf loc) : option (list string) :=
  match notes d with
  | None => Some []
  | Some n => match h !! n with
              | Some (OList xs) => Some xs
              | _ => None
              end
  end.

(** The profile a dictionary object denotes in store [h]. *)
Definition read_profile (h : heap) (x : loc) : option Profile :=
  match h !! x with
  | Some (ODict d) =>
      match notes d with
      | None => Some (set_notes d None)
      | Some n => match h !! n with
                  | Some (OList xs) => Some (set_notes d (Some xs))
                  | _ => None
                  end
      end
  | _ => None
  end.

Definition read_plan (h : heap) (x : loc) : option (list string) :=
  match h !! x with
  | Some (OList xs) => Some xs
  | _ => None
  end.

End Store.

(** ** agents/reflector.py *)

Module Reflector.

(** A metrics dictionary as [reflect] reads it: every key through [.get]. *)
Record MetricsDict : Type := mkMetricsDict {
  model : option string;
  accuracy : option Q;
  balanced_accuracy : option Q;
  f1_macro : option Q;
  precision_macro : option Q;
  recall_macro : option Q;
}.

(** The dictionary [reflect] returns. *)
Record Reflection : Type := mkReflection {
  status : string;
  best_model : option string;
  issues : list string;
  suggestions : list string;
  replan_recommended : bool;
}.

Definition is_dummy (m : MetricsDict) : bool :=
  contains "Dummy" (get_default (model m) ""%string).

(** [reflect(dataset_profile, evaluation, all_metrics)]. *)
Definition reflect (dataset_profile : Profile) (evaluation : MetricsDict)
    (all_metrics : list MetricsDict) : Reflection :=
  let best_model := model evaluation in
  let bal_acc := get_default (balanced_accuracy evaluation) 0%Q in
  let f1_macro := get_default (f1_macro evaluation) 0%Q in
  let imb := get_or (imbalance_ratio dataset_profile) 1 in
  let issues : list string := [] in
  let suggestions : list string := [] in
  let dummy := List.find is_dummy all_metrics in
  let '(issues, suggestions) :=
    match dummy with
    | Some dummy =>
        let dummy_ba := get_default (balanced_accuracy dummy) 0%Q in
        let improvement := (bal_acc - dummy_ba)%Q in
        if lt improvement 0.05 then
          (issues ++ [("Best model only " +:+ format_3f improvement +:+
                       " better than baseline. " +:+
                       "Weak signal or pipeline issues.")%string],
           suggestions ++ [("Check for target leakage, verify target quality, " +:+
                            "or improve feature engineering.")%string])
        else (issues, suggestions)
    | None => (issues, suggestions)
    end in
  let '(issues, suggestions) :=
    if lt f1_macro 0.60 then
      (issues ++ ["Macro F1 score is modest (<0.60)."%string],
       suggestions ++ [("Try different models, tune hyperparameters, " +:+
                        "or improve preprocessing.")%string])
    else (issues, suggestions) in
  let suggestions :=
    if ge imb 3 then
      suggestions ++ [("Imbalance detected: consider class_weight, " +:+
                       "threshold tuning, or SMOTE.")%string]
    else suggestions in
  let status : string :=
    match issues with [] => "ok" | _ => "needs_attention" end%string in
  let replan_recommended :=
    match issues with [] => false | _ => lt f1_macro 0.60 end in
  mkReflection status best_model issues suggestions replan_recommended.

(** [should_replan(reflection)]. *)
Definition should_replan (reflection : Reflection) : bool :=
  replan_recommended reflection.

Definition replan_note : string :=
  "Replan: adjusting strategy after reflection.".

(** [apply_replan_strategy(plan, dataset_profile, reflection)] on the
    object store: the arguments are references, and so are the results. *)
Definition apply_replan_strategy (plan dataset_profile : Store.loc)
    (reflection : Reflection) : Store.M (Store.loc * Store.loc) :=
  new_plan ← Store.list_copy plan;
  new_profile ← Store.dict_copy dataset_profile;
  old_notes ← Store.dict_get_notes new_profile;
  notes ← Store.list_copy old_notes;
  _ ← Store.list_append notes replan_note;
  _ ← Store.dict_set_notes new_profile notes;
  _ ← Store.list_append new_plan "replan_attempt";
  mret (new_plan, new_profile).

(** What [apply_replan_strategy] returns, on values: the function of its
    arguments' contents that the orchestrator's loop goes on with. *)
Definition apply_replan_strategy_value (plan : list string)
    (dataset_profile : Profile) (reflection : Reflection)
    : list string * Profile :=
  (plan ++ ["replan_attempt"%string],
   set_notes dataset_profile
     (Some (get_default (notes dataset_profile) [] ++ [replan_note]))).

End Reflector.

(** ** agents/memory.py *)

Module Memory.

(** What a file holds, as far as [json.load] can tell: text it rejects, or
    a text it reads as the document [j].  An object is held as the finite
    map of its entries, as Python compares dicts: the order in which
    [json.dump] writes the keys is not part of [Doc j], which stands for
    every text that [json.load] reads as [j]. *)
Inductive content : Type :=
| Text (raw : string)
| Doc (j : json).

(** The file system: paths to regular files. *)
Abbreviation files := (gmap string content).

(** The instance attributes of [JSONMemory]. *)
Record JSONMemory : Type := mkMemory {
  path : string;
  data : json;
}.

Definition note (ts msg : string) : json :=
  JObj (<["ts" := JStr ts]> (<["msg" := JStr msg]> ∅)).

Definition initial_data : json :=
  JObj (<["datasets" := JObj ∅]> (<["notes" := JArr []]> ∅)).

Definition reset_data (ts backup : string) : json :=
  JObj (<["datasets" := JObj ∅]>
       (<["notes" := JArr [note ts ("Memory reset; backup at " +:+ backup)]]> ∅)).

(** [self._load()]; [now] is what [now_iso()] returns. *)
Definition _load (now : string) (self : JSONMemory) (fs : files)
    : JSONMemory * files :=
  match fs !! path self with
  | None => (self, fs)
  | Some (Doc j) => (mkMemory (path self) j, fs)
  | Some (Text raw) =>
      let backup := (path self +:+ ".bak")%string in
      (mkMemory (path self) (reset_data now backup),
       <[backup := Text raw]> fs)
  end.

(** [JSONMemory(path)]. *)
Definition init (now : string) (path : string) (fs : files)
    : JSONMemory * files :=
  _load now (mkMemory path initial_data) fs.

(** [self.save()]. *)
Definition save (self : JSONMemory) (fs : files) : files :=
  <[path self := Doc (data self)]> fs.

(** [self.get_dataset_record(fingerprint)]: [Some JNull] is the [None] a
    Python caller receives; [None] is an exception. *)
Definition get_dataset_record (self : JSONMemory) (fingerprint : string)
    : option json :=
  match data self with
  | JObj m =>
      match default (JObj ∅) (m !! "datasets"%string) with
      | JObj datasets => Some (default JNull (datasets !! fingerprint))
      | _ => None
      end
  | _ => None
  end.

(** [self.upsert_dataset_record(fingerprint, record)]. *)
Definition upsert_dataset_record (self : JSONMemory) (fingerprint : string)
    (record : json) (fs : files) : option (JSONMemory * files) :=
  match data self with
  | JObj m =>
      let m := match m !! "datasets"%string with
               | Some _ => m
               | None => <["datasets"%string := JObj ∅]> m
               end in
      match default (JObj ∅) (m !! "datasets"%string) with
      | JObj datasets =>
          let self' :=
            mkMemory (path self)
              (JObj (<["datasets"%string := JObj (<[fingerprint := record]> datasets)]> m)) in
          Some (self', save self' fs)
      | _ => None
      end
  | _ => None
  end.

(** [self.add_note(msg)]. *)
Definition add_note (now : string) (self : JSONMemory) (msg : string)
    (fs : files) : option (JSONMemory * files) :=
  match data self with
  | JObj m =>
      let m := match m !! "notes"%string with
               | Some _ => m
               | None => <["notes"%string := JArr []]> m
               end in
      match default (JArr []) (m !! "notes"%string) with
      | JArr ns =>
          let self' :=
            mkMemory (path self)
              (JObj (<["notes"%string := JArr (ns ++ [note now msg])]> m)) in
          Some (self', save self' fs)
      | _ => None
      end
  | _ => None
  end.

(** The top-level shape of a memory document:
    [{"datasets": {fingerprint: record}, "notes": [{"ts", "msg"}, ...]}]. *)
Definition is_note (j : json) : Prop :=
  ∃ ts msg, j = note ts msg.

Definition valid_document (j : json) : Prop :=
  ∃ (datasets : gmap string json) (ns : list json),
    j = JObj (<["datasets" := JObj datasets]> (<["notes" := JArr ns]> ∅))
    ∧ Forall is_note ns.

(** A run of upserts, each saving to the file. *)
Fixpoint upsert_all (ops : list (string * json)) (self : JSONMemory)
    (fs : files) : option (JSONMemory * files) :=
  match ops with
  | [] => Some (self, fs)
  | (fp, r) :: ops' =>
      '(self', fs') ← upsert_dataset_record self fp r fs;
      upsert_all ops' self' fs'
  end.

End Memory.

(** ** tools/data_profiler.py *)

Module DataProfiler.

Inductive dtype : Type := DObject | DCategory | DInt64 | DFloat64 | DBool.

Inductive scalar : Type :=
| SInt (z : Z)
| SFloat (q : Q)
| SStr (s : string)
| SBool (b : bool).

(** A cell of a column: [None] is a missing value (NaN). *)
Definition cell : Type := option scalar.

Record Series : Type := mkSeries {
  s_dtype : dtype;
  s_values : list cell;
}.

(** A data frame as [pd.read_csv] builds it: the number of rows and the
    columns by name, in file order. *)
Record DataFrame : Type := mkDataFrame {
  n_rows : nat;
  df_columns : list (string * Series);
}.

(** [df.columns.astype(str).tolist()]. *)
Definition column_names (df : DataFrame) : list string :=
  (df_columns df).*1.

(** [df.shape]. *)
Definition shape (df : DataFrame) : Z * Z :=
  (Z.of_nat (n_rows df), Z.of_nat (length (df_columns df))).

(** [df[name]] for a column that exists. *)
Fixpoint getitem (cols : list (string * Series)) (name : string) : option Series :=
  match cols with
  | [] => None
  | (c, s) :: cols' => if String.eqb c name then Some s else getitem cols' name
  end.

Definition scalar_eqb (a b : scalar) : bool :=
  match a, b with
  | SInt x, SInt y => x =? y
  | SFloat x, SFloat y => Qeq_bool x y
  | SStr x, SStr y => String.eqb x y
  | SBool x, SBool y => Bool.eqb x y
  | _, _ => false
  end.

Definition cell_eqb (a b : cell) : bool :=
  match a, b with
  | None, None => true
  | Some x, Some y => scalar_eqb x y
  | _, _ => false
  end.

(** One more occurrence of [c] in a table of counts. *)
Fixpoint count_cell (c : cell) (vc : list (cell * Z)) : list (cell * Z) :=
  match vc with
  | [] => [(c, 1)]
  | (c', n) :: vc' =>
      if cell_eqb c' c then (c', n + 1) :: vc' else (c', n) :: count_cell c vc'
  end.

(** [series.value_counts(dropna=False)]: every distinct value, the missing
    one included, with its number of occurrences. *)
Definition value_counts (s : Series) : list (cell * Z) :=
  foldl (fun vc c => count_cell c vc) [] (s_values s).

(** [series.nunique(dropna=True)]. *)
Definition nunique (s : Series) : Z :=
  Z.of_nat (length (filter (fun '(c, _) => is_Some c) (value_counts s))).

(** [vc.max()] and [vc.min()] on a table of counts that is not empty. *)
Definition vc_max (vc : list (cell * Z)) : Z :=
  foldr Z.max 0 vc.*2.
Definition vc_min (vc : list (cell * Z)) : Z :=
  match vc.*2 with
  | [] => 0
  | n :: ns => foldr Z.min n ns
  end.

Definition is_classification_target (series : Series) : bool :=
  match s_dtype series with
  | DObject | DCategory => true
  | _ => nunique series <=? 50
  end.

Section Fingerprint.

(** The interpreter's [hash] on strings.  It is salted: an interpreter
    process draws a salt when it starts, and the hash of a string is a
    function of that salt and of the string. *)
Variable hash : Z -> string -> Z.
Variable salt : Z.

(** The string that is hashed. *)
Definition signature (df : DataFrame) (target : string) : string :=
  let cols := join "," (column_names df) in
  let shape := (pretty (shape df).1 +:+ "x" +:+ pretty (shape df).2)%string in
  (shape +:+ "|" +:+ target +:+ "|" +:+ cols)%string.

Definition residue (base : string) : Z :=
  Z.abs (hash salt base) mod 10 ^ 12.

(** [dataset_fingerprint(df, target)]. *)
Definition dataset_fingerprint (df : DataFrame) (target : string) : string :=
  let base := signature df target in
  let h := residue base in
  ("fp_" +:+ pretty h)%string.

End Fingerprint.

Definition small_note : string :=
  "Small dataset (<1000 rows): prefer simpler models / guard against overfitting.".
Definition wide_note : string :=
  "High dimensionality (>100 columns): watch one-hot expansion and overfitting.".
Definition imbalance_note : string :=
  "Imbalance detected (ratio >= 3.0): prioritise macro metrics / balanced accuracy.".
Definition regression_note : string :=
  "Non-classification target detected: this template focuses on classification.".

(** The [ratio] local of [profile_dataset], for a classification target:
    the two counts are NumPy integers, which [/] converts to floats and
    divides as floats. *)
Definition class_ratio (vc : list (cell * Z)) : Q :=
  if (2 <=? Z.of_nat (length vc)) then
    truediv (float (vc_max vc)) (float (Z.max (vc_min vc) 1))
  else 1%Q.

(** [profile_dataset(df, target)]; [None] is the [ValueError] for a target
    that is not a column. *)
Definition profile_dataset (df : DataFrame) (target : string) : option Profile :=
  y ← getitem (df_columns df) target;
  let rows := (shape df).1 in
  let cols := (shape df).2 in
  let is_classification := is_classification_target y in
  let notes : list string := [] in
  let notes := if rows <? 1000 then notes ++ [small_note] else notes in
  let notes := if 100 <? cols then notes ++ [wide_note] else notes in
  if is_classification then
    let vc := value_counts y in
    let ratio := class_ratio vc in
    let notes := if ge ratio 3 then notes ++ [imbalance_note] else notes in
    Some (mkProfile rows cols (column_names df) target is_classification
            (Val (round3 ratio)) (Some notes))
  else
    Some (mkProfile rows cols (column_names df) target is_classification
            IsNone (Some (notes ++ [regression_note]))).

(** The names [infer_target_column] looks for, in this order. *)
Definition target_names : list string :=
  ["target"; "label"; "class"; "y"; "outcome"]%string.

(** [{c.lower(): c for c in df.columns}]: a later column replaces an
    earlier one of the same lowered name. *)
Definition lower_map (cols : list string) : gmap string string :=
  foldl (fun m c => <[lower c := c]> m) ∅ cols.

(** The [for k in candidates] loop: the column of the first name found. *)
Fixpoint first_known (ks : list string) (m : gmap string string) : option string :=
  match ks with
  | [] => None
  | k :: ks' =>
      match m !! k with
      | Some c => Some c
      | None => first_known ks' m
      end
  end.

(** [infer_target_column(df)]: [Some None] is the [None] it returns when
    nothing fits; the outer [None] is the [IndexError] of [df.columns[-1]]
    on a frame without columns. *)
Definition infer_target_column (df : DataFrame) : option (option string) :=
  let lower_map := lower_map (column_names df) in
  match first_known target_names lower_map with
  | Some c => Some (Some c)
  | None =>
      last ← last (column_names df);
      series ← getitem (df_columns df) last;
      let uniq := nunique series in
      let n := Z.of_nat (n_rows df) in
      if (0 <? n) &&
         ((uniq <=? 50) || lt (inject_Z uniq / inject_Z (Z.max n 1)) 0.05)
      then Some (Some last)
      else Some None
  end.

End DataProfiler.

(** ** tools/modelling.py *)

Module Modelling.

(** The estimators [select_models] configures. *)
Inductive estimator : Type :=
| DummyClassifier (strategy : string)
| LogisticRegression (max_iter : Z) (class_weight : option string)
| RandomForestClassifier (n_estimators random_state : Z) (class_weight : option string)
| GradientBoostingClassifier (random_state : Z)
| SVC (kernel : string) (probability : bool) (class_weight : option string).

Abbreviation candidate := (string * estimator)%type.

(** [select_models(profile, seed)]. *)
Definition select_models (profile : Profile) (seed : Z) : list candidate :=
  let rows := shape_rows profile in
  let cols := shape_cols profile in
  let imb := get_or (imbalance_ratio profile) 1 in
  let class_weight := if ge imb 3 then Some "balanced"%string else None in
  let candidates :=
    [ ("DummyMostFrequent", DummyClassifier "most_frequent");
      ("LogisticRegression", LogisticRegression 2000 class_weight);
      ("RandomForest", RandomForestClassifier 300 seed class_weight) ]%string in
  let candidates :=
    if rows <=? 50000 then
      candidates ++ [("GradientBoosting"%string, GradientBoostingClassifier seed)]
    else candidates in
  let candidates :=
    if (rows <=? 20000) && (cols <=? 200) then
      candidates ++ [("SVC_RBF"%string, SVC "rbf" true class_weight)]
    else candidates in
  candidates.

(** What the scikit-learn metric functions report for one fitted pipeline. *)
Record Scores : Type := mkScores {
  accuracy_score : Q;
  balanced_accuracy_score : Q;
  f1_score : Q;
  precision_score : Q;
  recall_score : Q;
}.

(** The [metrics] dictionary [train_models] builds for a candidate. *)
Record Metrics : Type := mkMetrics {
  model : string;
  accuracy : Q;
  balanced_accuracy : Q;
  f1_macro : Q;
  precision_macro : Q;
  recall_macro : Q;
}.

(** An entry of [results]; the held-out data and predictions it also
    carries only feed the confusion-matrix plot. *)
Record Result : Type := mkResult {
  name : string;
  pipeline : estimator;
  metrics : Metrics;
}.

(** The dictionary [train_models] returns. *)
Record Training : Type := mkTraining {
  results : list Result;
  best : Result;
  all_metrics : list Metrics;
}.

(** The sort key [(balanced_accuracy, f1_macro)] and the order of tuples. *)
Definition sort_key (r : Result) : Q * Q :=
  (balanced_accuracy (metrics r), f1_macro (metrics r)).

Definition key_lt (a b : Q * Q) : bool :=
  lt a.1 b.1 || (Qeq_bool a.1 b.1 && lt a.2 b.2).

Definition key_eq (a b : Q * Q) : bool :=
  Qeq_bool a.1 b.1 && Qeq_bool a.2 b.2.

(** [results.sort(key=..., reverse=True)].  Python's sort is stable, also
    when reversed: entries with equal keys keep their order.  [insert_desc]
    puts an entry, which came before all of [l], in front of the first one
    whose key is not greater. *)
Fixpoint insert_desc (x : Result) (l : list Result) : list Result :=
  match l with
  | [] => [x]
  | y :: l' =>
      if key_lt (sort_key x) (sort_key y) then y :: insert_desc x l'
      else x :: y :: l'
  end.

Definition sort_desc (l : list Result) : list Result :=
  foldr insert_desc [] l.

Section Train.

(** Fitting the pipeline of a candidate on the training split and scoring
    its predictions on the test split. *)
Variable fit_and_score : string -> estimator -> Scores.

Definition train_one (c : candidate) : Result :=
  let '(name, model) := c in
  let s := fit_and_score name model in
  mkResult name model
    (mkMetrics name (accuracy_score s) (balanced_accuracy_score s)
       (f1_score s) (precision_score s) (recall_score s)).

(** [train_models(df, target, preprocessor, candidates, ...)], on data that
    [train_test_split] splits and with candidates that fit: the split, the
    fitting and the scoring are the parameter [fit_and_score], a total
    function, and an exception that scikit-learn raises in them is not
    modelled.  [None] is the [ValueError] for a missing target or the
    [IndexError] of [results[0]]. *)
Definition train_models (df : DataProfiler.DataFrame) (target : string)
    (candidates : list candidate) : option Training :=
  if bool_decide (target ∈ DataProfiler.column_names df) then
    let results := train_one <$> candidates in
    let results := sort_desc results in
    best ← head results;
    Some (mkTraining results best (metrics <$> results))
  else None.

End Train.

End Modelling.

(** ** tools/evaluation.py *)

Module Evaluation.

(** The payload of [evaluate_best], without the plot path and the textual
    classification report. *)
Record Payload : Type := mkPayload {
  best_metrics : Modelling.Metrics;
  all_metrics : list Modelling.Metrics;
}.

Definition evaluate_best (training_payload : Modelling.Training) : Payload :=
  let best := Modelling.best training_payload in
  let all_metrics := Modelling.all_metrics training_payload in
  mkPayload (Modelling.metrics best) all_metrics.

End Evaluation.

(** ** agentic_data_scientist.py *)

Module Orchestrator.

Record RunContext : Type := mkRunContext {
  run_id : string;
  started_at : string;
  data_path : string;
  target : string;
  output_dir : string;
  seed : Z;
  test_size : Q;
  max_replans : Z;
}.

(** What a run leaves behind, in order: the artefacts of a cycle that got
    as far as its reflection, and the replans taken. *)
Inductive event : Type :=
| Reflected (plan : list string) (reflection : Reflector.Reflection)
| Replanning (attempt : Z).

(** The variables of [run] that change in the loop, the memory and its
    file, and the events so far. *)
Record state : Type := mkState {
  replan_count : Z;
  plan : list string;
  profile : Profile;
  memory : Memory.JSONMemory;
  fs : Memory.files;
  log : list event;
}.

Inductive outcome : Type :=
| Done (s : state)
| Raised (s : state)
| OutOfFuel.

Definition is_cycle (e : event) : bool :=
  match e with Reflected _ _ => true | Replanning _ => false end.
Definition is_replan (e : event) : bool :=
  match e with Replanning _ => true | Reflected _ _ => false end.

(** The train/evaluate/reflect cycles and the replan transitions of a run. *)
Definition cycles (s : state) : nat := length (filter is_cycle (log s)).
Definition replans (s : state) : nat := length (filter is_replan (log s)).

Definition to_dict (m : Modelling.Metrics) : Reflector.MetricsDict :=
  Reflector.mkMetricsDict
    (Some (Modelling.model m)) (Some (Modelling.accuracy m))
    (Some (Modelling.balanced_accuracy m)) (Some (Modelling.f1_macro m))
    (Some (Modelling.precision_macro m)) (Some (Modelling.recall_macro m)).

Definition metrics_json (m : Modelling.Metrics) : json :=
  JObj (<["model" := JStr (Modelling.model m)]>
       (<["accuracy" := JNum (Modelling.accuracy m)]>
       (<["balanced_accuracy" := JNum (Modelling.balanced_accuracy m)]>
       (<["f1_macro" := JNum (Modelling.f1_macro m)]>
       (<["precision_macro" := JNum (Modelling.precision_macro m)]>
       (<["recall_macro" := JNum (Modelling.recall_macro m)]> ∅)))))).

(** The record written to memory at the end of a cycle. *)
Definition memory_record (now target : string) (profile : Profile)
    (best_metrics : Modelling.Metrics) : json :=
  JObj (<["last_seen" := JStr now]>
       (<["target" := JStr target]>
       (<["shape" := JObj (<["rows" := JNum (inject_Z (shape_rows profile))]>
                          (<["cols" := JNum (inject_Z (shape_cols profile))]> ∅))]>
       (<["best_model" := JStr (Modelling.model best_metrics)]>
       (<["best_metrics" := metrics_json best_metrics]> ∅))))).

Section Run.

(** Fitting and scoring a candidate in the cycle of a given number, for the
    profile of that cycle. *)
Variable fit_and_score : nat -> Profile -> string -> Modelling.estimator -> Modelling.Scores.
(** [now_iso()] in the cycle of a given number. *)
Variable now_iso : nat -> string.
(** The interpreter's [hash] on strings, and the salt of the process. *)
Variable hash : Z -> string -> Z.
Variable salt : Z.

Variable df : DataProfiler.DataFrame.
(** The context, once the target is resolved. *)
Variable ctx : RunContext.

(** The [while True] loop of [run], entered for the [i]-th time with the
    variables in [s]; [fp] is the fingerprint of the dataset.  [fuel]
    bounds the number of iterations. *)
Fixpoint run_loop (fp : string) (fuel : nat) (i : nat) (s : state) : outcome :=
  match fuel with
  | O => OutOfFuel
  | S fuel' =>
      let candidates := Modelling.select_models (profile s) (seed ctx) in
      match Modelling.train_models (fit_and_score i (profile s)) df (target ctx) candidates with
      | None => Raised s
      | Some results =>
          let eval_payload := Evaluation.evaluate_best results in
          let reflection :=
            Reflector.reflect (profile s)
              (to_dict (Evaluation.best_metrics eval_payload))
              (to_dict <$> Evaluation.all_metrics eval_payload) in
          let s := mkState (replan_count s) (plan s) (profile s) (memory s) (fs s)
                     (log s ++ [Reflected (plan s) reflection]) in
          match Memory.upsert_dataset_record (memory s) fp
                  (memory_record (now_iso i) (target ctx) (profile s)
                     (Evaluation.best_metrics eval_payload)) (fs s) with
          | None => Raised s
          | Some (memory', fs') =>
              let s := mkState (replan_count s) (plan s) (profile s) memory' fs' (log s) in
              if negb (Reflector.should_replan reflection) then Done s
              else if max_replans ctx <=? replan_count s then Done s
              else
                let replan_count' := replan_count s + 1 in
                let '(plan', profile') :=
                  Reflector.apply_replan_strategy_value (plan s) (profile s) reflection in
                run_loop fp fuel' (S i)
                  (mkState replan_count' plan' profile' (memory s) (fs s)
                     (log s ++ [Replanning replan_count']))
          end
      end
  end.

(** The [if prev:] branch of [run]: the log message reads
    [prev.get('best_model')], which raises when the record found is not a
    dict. *)
Definition memory_hit (prev : json) : option unit :=
  if json_truthy prev then
    match prev with
    | JObj _ => Some ()
    | _ => None
    end
  else Some ().

(** [run], from the profiling of the loaded data on; the outer [None] is an
    exception raised before the loop is entered. *)
Definition run (fuel : nat) (memory : Memory.JSONMemory) (fs : Memory.files)
    : option outcome :=
  profile ← DataProfiler.profile_dataset df (target ctx);
  let fp := DataProfiler.dataset_fingerprint hash salt df (target ctx) in
  prev ← Memory.get_dataset_record memory fp;
  _ ← memory_hit prev;
  plan ← Planner.create_plan profile prev;
  Some (run_loop fp fuel 0 (mkState 0 plan profile memory fs [])).

End Run.

End Orchestrator.

(* ===================================================================== *)
(** * Part II: properties                                                *)
(* ===================================================================== *)

(** ** Numbers and lists *)

Lemma lt_spec (a b : Q) : Py.lt a b = true <-> (a < b)%Q.
Proof.
  unfold Py.lt. rewrite negb_true_iff, <- not_true_iff_false, Qle_bool_iff.
  split; [apply Qnot_le_lt | apply Qlt_not_le].
Qed.

Lemma ge_spec (a b : Q) : Py.ge a b = true <-> (b <= a)%Q.
Proof. apply Qle_bool_iff. Qed.

Lemma truthy_spec (q : Q) : Py.truthy q = false <-> (q == 0)%Q.
Proof. unfold Py.truthy. rewrite negb_false_iff. apply Qeq_bool_iff. Qed.

Lemma get_or_ge (q d : Q) : (3 <= q)%Q -> get_or (Val q) d = q.
Proof.
  intros Hq. simpl. destruct (truthy q) eqn:Ht; [reflexivity|].
  apply truthy_spec in Ht. rewrite Ht in Hq. apply Qle_bool_iff in Hq. discriminate Hq.
Qed.

Lemma get_or_unset (e : entry Q) :
  e = Missing \/ e = IsNone \/ (exists q, e = Val q /\ (q == 0)%Q) ->
  get_or e 1 = 1%Q.
Proof.
  intros [-> | [-> | (q & -> & Hq)]]; [reflexivity | reflexivity |].
  simpl. apply truthy_spec in Hq. now rewrite Hq.
Qed.

(** ** The planner *)

Section PlannerProperties.

Import Planner.

Definition imbalance_task : string := "consider_imbalance_strategy".

(** The plan for an imbalanced profile, written out. *)
Lemma create_plan_imbalanced_eq (p : Profile) (hint : json) (q : Q) :
  imbalance_ratio p = Val q -> (3 <= q)%Q ->
  create_plan p hint =
    Some [ "profile_dataset"; "build_preprocessor"; "select_models";
           imbalance_task; "train_models"; "evaluate"; "reflect";
           "write_report" ]%string.
Proof.
  intros Hp Hq. unfold create_plan. rewrite Hp, (get_or_ge q 1 Hq).
  apply ge_spec in Hq. now rewrite Hq.
Qed.

(** C3. For a profile whose imbalance ratio is a number at least 3.0,
    [create_plan] returns a plan that is the base sequence with one extra
    task: dropping that task gives back the seven base labels in their
    order, the plan is one longer, the extra task sits immediately before
    ["train_models"] and strictly after ["build_preprocessor"]. *)
Theorem create_plan_imbalanced (p : Profile) (hint : json) (q : Q) :
  imbalance_ratio p = Val q -> (3 <= q)%Q ->
  exists plan : list string,
    create_plan p hint = Some plan
    /\ filter (fun t => t <> imbalance_task) plan = base_plan
    /\ base_plan `sublist_of` plan
    /\ length plan = S (length base_plan)
    /\ (imbalance_task ∉ base_plan)
    /\ exists i j : nat,
         plan !! i = Some imbalance_task
         /\ plan !! S i = Some "train_models"%string
         /\ plan !! j = Some "build_preprocessor"%string
         /\ (j < i)%nat
         /\ forall k : nat, plan !! k = Some imbalance_task -> k = i.
Proof.
  intros Hp Hq. eexists. split; [exact (create_plan_imbalanced_eq p hint q Hp Hq)|].
  split; [reflexivity|]. split.
  { unfold base_plan. do 3 apply sublist_skip. apply sublist_cons.
    do 4 apply sublist_skip. apply sublist_nil. }
  split; [reflexivity|]. split.
  { apply (bool_decide_unpack _). vm_compute. exact I. }
  exists 3%nat, 1%nat. repeat split; [lia|].
  intros k Hk. do 8 (destruct k as [|k]; [try discriminate Hk; try reflexivity|]).
  discriminate Hk.
Qed.

Definition imbalanced_profile : Profile :=
  mkProfile 5000 3 ["a"; "b"; "y"]%string "y" true (Val 4.5%Q) (Some []).

Lemma create_plan_imbalanced_witness :
  exists plan : list string,
    create_plan imbalanced_profile JNull = Some plan
    /\ filter (fun t => t <> imbalance_task) plan = base_plan
    /\ base_plan `sublist_of` plan
    /\ length plan = S (length base_plan)
    /\ (imbalance_task ∉ base_plan)
    /\ exists i j : nat,
         plan !! i = Some imbalance_task
         /\ plan !! S i = Some "train_models"%string
         /\ plan !! j = Some "build_preprocessor"%string
         /\ (j < i)%nat
         /\ forall k : nat, plan !! k = Some imbalance_task -> k = i.
Proof.
  apply (create_plan_imbalanced imbalanced_profile JNull 4.5%Q).
  - reflexivity.
  - apply Qle_bool_iff. reflexivity.
Defined.

(** The profile with its imbalance ratio set to a number. *)
Definition with_ratio (p : Profile) (q : Q) : Profile :=
  mkProfile (shape_rows p) (shape_cols p) (columns p) (target p)
            (is_classification p) (Val q) (notes p).

(** C10. When the [imbalance_ratio] key is missing, or bound to [None] or
    to zero, [create_plan] returns what it returns for a ratio of 1.0: the
    seven base labels in their order, without the imbalance task. *)
Theorem create_plan_ratio_unset (p : Profile) (hint : json) :
  imbalance_ratio p = Missing \/ imbalance_ratio p = IsNone
    \/ (exists q, imbalance_ratio p = Val q /\ (q == 0)%Q) ->
  create_plan p hint = create_plan (with_ratio p 1) hint
  /\ create_plan p hint =
       Some [ "profile_dataset"; "build_preprocessor"; "select_models";
              "train_models"; "evaluate"; "reflect"; "write_report" ]%string
  /\ forall plan, create_plan p hint = Some plan ->
       (imbalance_task ∉ plan) /\ length plan = 7%nat.
Proof.
  intros H. assert (E : create_plan p hint = Some base_plan).
  { unfold create_plan. now rewrite (get_or_unset _ H). }
  rewrite E. split; [reflexivity|]. split; [reflexivity|].
  intros plan [= <-]. split; [|reflexivity].
  apply (bool_decide_unpack _). vm_compute. exact I.
Qed.

Lemma create_plan_ratio_unset_witness :
  create_plan (mkProfile 200 2 ["x"; "y"]%string "y" false IsNone (Some [])) JNull
  = Some base_plan.
Proof.
  apply (create_plan_ratio_unset
           (mkProfile 200 2 ["x"; "y"]%string "y" false IsNone (Some [])) JNull).
  right. left. reflexivity.
Defined.

End PlannerProperties.

(** ** The reflector *)

Section ReflectorProperties.

Import Reflector.

(** The macro-F1 [reflect] reads from the best candidate's metrics. *)
Definition best_f1 (evaluation : MetricsDict) : Q :=
  get_default (f1_macro evaluation) 0%Q.

Lemma app_singleton_not_nil {A : Type} (l : list A) (x : A) : l ++ [x] <> [].
Proof. destruct l; discriminate. Qed.

(** A modest macro-F1 is itself an issue. *)
Lemma reflect_modest_f1_issue (p : Profile) (evaluation : MetricsDict)
    (all_metrics : list MetricsDict) :
  (best_f1 evaluation < 0.60)%Q -> issues (reflect p evaluation all_metrics) <> [].
Proof.
  intros H%lt_spec. unfold reflect, best_f1 in *.
  destruct (List.find _ _); [destruct (Py.lt (_ - _) _)|];
    rewrite H; simpl; try discriminate; apply app_singleton_not_nil.
Qed.

(** C2. [reflect] reports ["needs_attention"] exactly when it raised an
    issue (and ["ok"] otherwise), recommends a replan exactly when it raised
    an issue and the best candidate's macro-F1 is below 0.60, and
    [should_replan] returns the [replan_recommended] field. *)
Theorem reflect_status_replan (p : Profile) (evaluation : MetricsDict)
    (all_metrics : list MetricsDict) :
  let r := reflect p evaluation all_metrics in
  (status r = "needs_attention"%string <-> issues r <> [])
  /\ (status r = "ok"%string <-> issues r = [])
  /\ (replan_recommended r = true <->
        issues r <> [] /\ (best_f1 evaluation < 0.60)%Q)
  /\ should_replan r = replan_recommended r.
Proof.
  intros r. subst r. unfold should_replan, best_f1.
  rewrite <- lt_spec. unfold reflect.
  set (f1 := get_default (f1_macro evaluation) 0%Q).
  destruct (List.find _ _) as [d|]; [destruct (Py.lt (_ - _) _)|];
    destruct (Py.lt f1 _); simpl;
    repeat split; intros; try discriminate; try congruence; try tauto;
    intuition discriminate.
Qed.

End ReflectorProperties.

(** ** The replan strategy on the object store *)

Section StoreProperties.

Import Store Reflector.

Lemma fresh_unused (h : heap) : h !! fresh (dom h) = None.
Proof. apply not_elem_of_dom, is_fresh. Qed.

Lemma bind_step {A B : Type} (m : M A) (f : A -> M B) (h h' : heap) (a : A) :
  m h = Some (a, h') -> (m ≫= f) h = f a h'.
Proof. intros E. unfold mbind, M_bind. now rewrite E. Qed.

Lemma list_copy_step (h : heap) (x : loc) (xs : list string) :
  h !! x = Some (OList xs) ->
  list_copy x h = Some (fresh (dom h), <[fresh (dom h) := OList xs]> h).
Proof. intros E. unfold list_copy, mbind, M_bind, read_list. now rewrite E. Qed.

Lemma dict_copy_step (h : heap) (x : loc) (d : ProfileOf loc) :
  h !! x = Some (ODict d) ->
  dict_copy x h = Some (fresh (dom h), <[fresh (dom h) := ODict d]> h).
Proof. intros E. unfold dict_copy, mbind, M_bind, read_dict. now rewrite E. Qed.

Lemma list_append_step (h : heap) (x : loc) (xs : list string) (s : string) :
  h !! x = Some (OList xs) ->
  list_append x s h = Some (tt, <[x := OList (xs ++ [s])]> h).
Proof. intros E. unfold list_append, mbind, M_bind, read_list. now rewrite E. Qed.

Lemma dict_set_notes_step (h : heap) (x n : loc) (d : ProfileOf loc) :
  h !! x = Some (ODict d) ->
  dict_set_notes x n h = Some (tt, <[x := ODict (set_notes d (Some n))]> h).
Proof. intros E. unfold dict_set_notes, mbind, M_bind, read_dict. now rewrite E. Qed.

Lemma dict_get_notes_step (h : heap) (x : loc) (d : ProfileOf loc) :
  h !! x = Some (ODict d) ->
  dict_get_notes x h =
    Some (get_default (notes d) (fresh (dom h)), <[fresh (dom h) := OList []]> h).
Proof.
  intros E. unfold dict_get_notes, mbind, M_bind, read_dict, alloc, mret, M_ret.
  rewrite lookup_insert_ne, E; [reflexivity|].
  intros F. rewrite <- F, fresh_unused in E. discriminate E.
Qed.

(** Allocation leaves a location that is in use as it is. *)
Lemma lookup_alloc (h : heap) (o : obj) (l : loc) :
  is_Some (h !! l) -> <[fresh (dom h) := o]> h !! l = h !! l.
Proof.
  intros [o' E]. apply lookup_insert_ne. intros F.
  rewrite <- F, fresh_unused in E. discriminate E.
Qed.

(** What [apply_replan_strategy] does to the store: three new objects (the
    new plan, the new profile and its notes list), and no change to any
    object that was there. *)
Lemma apply_replan_strategy_spec (h : heap) (lp ld : loc) (plan : list string)
    (d : ProfileOf loc) (ns : list string) (refl : Reflection) :
  h !! lp = Some (OList plan) -> h !! ld = Some (ODict d) ->
  notes_in h d = Some ns ->
  exists (lp' ld' ln' : loc) (h' : heap),
    apply_replan_strategy lp ld refl h = Some ((lp', ld'), h')
    /\ h !! lp' = None /\ h !! ld' = None /\ h !! ln' = None
    /\ (forall l : loc, is_Some (h !! l) -> h' !! l = h !! l)
    /\ h' !! lp' = Some (OList (plan ++ ["replan_attempt"%string]))
    /\ h' !! ld' = Some (ODict (set_notes d (Some ln')))
    /\ h' !! ln' = Some (OList (ns ++ [replan_note])).
Proof.
  intros Hp Hd Hn.
  set (l1 := fresh (dom h)). set (h1 := <[l1 := OList plan]> h).
  set (l2 := fresh (dom h1)). set (h2 := <[l2 := ODict d]> h1).
  set (l3 := fresh (dom h2)). set (h3 := <[l3 := OList []]> h2).
  set (l4 := fresh (dom h3)). set (h4 := <[l4 := OList ns]> h3).
  assert (F1 : h !! l1 = None) by apply fresh_unused.
  assert (F2 : h1 !! l2 = None) by apply fresh_unused.
  assert (F3 : h2 !! l3 = None) by apply fresh_unused.
  assert (F4 : h3 !! l4 = None) by apply fresh_unused.
  apply lookup_insert_None in F2 as [F2 N21].
  apply lookup_insert_None in F3 as [F3 N32].
  apply lookup_insert_None in F3 as [F3 N31].
  apply lookup_insert_None in F4 as [F4 N43].
  apply lookup_insert_None in F4 as [F4 N42].
  apply lookup_insert_None in F4 as [F4 N41].
  assert (Hold : h3 !! get_default (notes d) l3 = Some (OList ns)).
  { unfold notes_in in Hn. destruct (notes d) as [n|]; simpl.
    - destruct (h !! n) as [[xs|]|] eqn:En; try discriminate Hn.
      injection Hn as <-. subst h3 h2 h1.
      rewrite !lookup_insert_ne; [exact En| | |]; intros <-; congruence.
    - injection Hn as <-. subst h3. apply lookup_insert_eq. }
  exists l1, l2, l4.
  exists (<[l1 := OList (plan ++ ["replan_attempt"%string])]>
          (<[l2 := ODict (set_notes d (Some l4))]>
           (<[l4 := OList (ns ++ [replan_note])]> h4))).
  split.
  { unfold apply_replan_strategy.
    rewrite (bind_step _ _ h h1 l1) by (apply list_copy_step, Hp).
    rewrite (bind_step _ _ h1 h2 l2).
    2:{ apply dict_copy_step. subst h1. rewrite lookup_insert_ne; [exact Hd|].
        intros <-. congruence. }
    rewrite (bind_step _ _ h2 h3 (get_default (notes d) l3)).
    2:{ apply dict_get_notes_step. subst h2. apply lookup_insert_eq. }
    rewrite (bind_step _ _ h3 h4 l4) by (apply list_copy_step, Hold).
    rewrite (bind_step _ _ h4 (<[l4 := OList (ns ++ [replan_note])]> h4) tt).
    2:{ apply list_append_step. subst h4. apply lookup_insert_eq. }
    rewrite (bind_step _ _ _
               (<[l2 := ODict (set_notes d (Some l4))]>
                  (<[l4 := OList (ns ++ [replan_note])]> h4)) tt).
    2:{ apply dict_set_notes_step. subst h4 h3 h2.
        rewrite !lookup_insert_ne by congruence. apply lookup_insert_eq. }
    rewrite (bind_step _ _ _
               (<[l1 := OList (plan ++ ["replan_attempt"%string])]>
                 (<[l2 := ODict (set_notes d (Some l4))]>
                   (<[l4 := OList (ns ++ [replan_note])]> h4))) tt).
    2:{ apply list_append_step. subst h4 h3 h2 h1.
        rewrite !lookup_insert_ne by congruence. apply lookup_insert_eq. }
    reflexivity. }
  split; [exact F1|]. split; [exact F2|]. split; [exact F4|].
  split.
  { intros l [o Hl]. subst h4 h3 h2 h1.
    rewrite !lookup_insert_ne; [reflexivity|..]; intros <-; congruence. }
  split; [apply lookup_insert_eq|]. split.
  - rewrite lookup_insert_ne by congruence. apply lookup_insert_eq.
  - rewrite !lookup_insert_ne by congruence. apply lookup_insert_eq.
Qed.

(** C4. [apply_replan_strategy] returns without an exception on a plan
    list and a profile dictionary; afterwards the input plan, the input
    profile and its notes list, like every other object of the store, are
    what they were, the new plan has the input plan as a prefix (so it is
    not shorter), and the notes of the new profile have the input notes as a
    prefix. *)
Theorem apply_replan_strategy_extends (h : heap) (lp ld : loc)
    (plan : list string) (d : ProfileOf loc) (ns : list string)
    (refl : Reflection) :
  h !! lp = Some (OList plan) -> h !! ld = Some (ODict d) ->
  notes_in h d = Some ns ->
  exists (lp' ld' : loc) (h' : heap) (plan' : list string)
         (d' : ProfileOf loc) (ns' : list string),
    apply_replan_strategy lp ld refl h = Some ((lp', ld'), h')
    /\ h' !! lp = Some (OList plan)
    /\ h' !! ld = Some (ODict d)
    /\ notes_in h' d = Some ns
    /\ (forall l : loc, is_Some (h !! l) -> h' !! l = h !! l)
    /\ h' !! lp' = Some (OList plan')
    /\ plan `prefix_of` plan'
    /\ (length plan <= length plan')%nat
    /\ h' !! ld' = Some (ODict d')
    /\ notes_in h' d' = Some ns'
    /\ ns `prefix_of` ns'.
Proof.
  intros Hp Hd Hn.
  destruct (apply_replan_strategy_spec h lp ld plan d ns refl Hp Hd Hn)
    as (lp' & ld' & ln' & h' & Hrun & _ & _ & _ & Hframe & Hlp' & Hld' & Hln').
  exists lp', ld', h', (plan ++ ["replan_attempt"%string]),
    (set_notes d (Some ln')), (ns ++ [replan_note]).
  split; [exact Hrun|].
  split; [rewrite Hframe; eauto|]. split; [rewrite Hframe; eauto|].
  split.
  { unfold notes_in in *. destruct (notes d) as [n|]; [|exact Hn].
    destruct (h !! n) as [o|] eqn:En; [|discriminate Hn].
    rewrite Hframe, En; eauto. }
  split; [exact Hframe|]. split; [exact Hlp'|].
  split; [now apply prefix_app_r|].
  split; [rewrite length_app; lia|].
  split; [exact Hld'|].
  split; [unfold notes_in; simpl; now rewrite Hln'|].
  now apply prefix_app_r.
Qed.

Definition sample_heap : heap :=
  <[1%positive := OList ["profile_dataset"; "train_models"]%string]>
  (<[2%positive := ODict (mkProfile 200 2 ["x"; "y"]%string "y" true (Val 9%Q)
                            (Some 3%positive))]>
  (<[3%positive := OList ["Small dataset"%string]]> ∅)).

Lemma apply_replan_strategy_extends_witness :
  exists (lp' ld' : loc) (h' : heap) (plan' : list string)
         (d' : ProfileOf loc) (ns' : list string),
    apply_replan_strategy 1%positive 2%positive
      (mkReflection "needs_attention" None [] [] true) sample_heap
      = Some ((lp', ld'), h')
    /\ h' !! 1%positive = Some (OList ["profile_dataset"; "train_models"]%string)
    /\ h' !! 2%positive =
         Some (ODict (mkProfile 200 2 ["x"; "y"]%string "y" true (Val 9%Q)
                        (Some 3%positive)))
    /\ notes_in h' (mkProfile 200 2 ["x"; "y"]%string "y" true (Val 9%Q)
                      (Some 3%positive)) = Some ["Small dataset"%string]
    /\ (forall l : loc, is_Some (sample_heap !! l) -> h' !! l = sample_heap !! l)
    /\ h' !! lp' = Some (OList plan')
    /\ ["profile_dataset"; "train_models"]%string `prefix_of` plan'
    /\ (2 <= length plan')%nat
    /\ h' !! ld' = Some (ODict d')
    /\ notes_in h' d' = Some ns'
    /\ ["Small dataset"%string] `prefix_of` ns'.
Proof.
  apply (apply_replan_strategy_extends sample_heap 1%positive 2%positive
           ["profile_dataset"; "train_models"]%string
           (mkProfile 200 2 ["x"; "y"]%string "y" true (Val 9%Q) (Some 3%positive))
           ["Small dataset"%string]
           (mkReflection "needs_attention" None [] [] true));
    reflexivity.
Defined.

(** The store version computes the value version: reading the results
    back gives [apply_replan_strategy_value] of what the arguments held. *)
Lemma apply_replan_strategy_refines (h : heap) (lp ld : loc)
    (plan : list string) (p : Profile) (refl : Reflection) :
  read_plan h lp = Some plan -> read_profile h ld = Some p ->
  exists (lp' ld' : loc) (h' : heap),
    apply_replan_strategy lp ld refl h = Some ((lp', ld'), h')
    /\ read_plan h' lp' = Some (apply_replan_strategy_value plan p refl).1
    /\ read_profile h' ld' = Some (apply_replan_strategy_value plan p refl).2
    /\ read_plan h' lp = Some plan
    /\ read_profile h' ld = Some p.
Proof.
  unfold read_plan, read_profile. intros Hp Hd.
  destruct (h !! lp) as [[xs|]|] eqn:Elp; try discriminate Hp.
  injection Hp as ->.
  destruct (h !! ld) as [[|d]|] eqn:Eld; try discriminate Hd.
  assert (Hn : notes_in h d = Some (get_default (notes p) [])).
  { unfold notes_in. destruct (notes d) as [n|].
    - destruct (h !! n) as [[ys|]|]; try discriminate Hd. now injection Hd as <-.
    - now injection Hd as <-. }
  destruct (apply_replan_strategy_spec h lp ld plan d _ refl Elp Eld Hn)
    as (lp' & ld' & ln' & h' & Hrun & _ & _ & _ & Hframe & Hlp' & Hld' & Hln').
  exists lp', ld', h'. split; [exact Hrun|].
  rewrite Hlp', Hld'. simpl. rewrite Hln'.
  rewrite !Hframe, Elp, Eld by eauto.
  repeat split.
  - unfold apply_replan_strategy_value. simpl. f_equal.
    destruct (notes d) as [n|].
    + destruct (h !! n) as [[ys|]|]; try discriminate Hd. now injection Hd as <-.
    + now injection Hd as <-.
  - destruct (notes d) as [n|] eqn:En; [|exact Hd].
    destruct (h !! n) as [o|] eqn:Ehn; [|discriminate Hd].
    rewrite Hframe, Ehn; eauto.
Qed.

End StoreProperties.

(** ** The memory store *)

Section MemoryProperties.

Import Memory.

(** A store whose data has the shape the operations expect: an object
    whose ["datasets"] entry, when there is one, is an object. *)
Definition well_shaped (self : JSONMemory) : Prop :=
  exists m : gmap string json,
    data self = JObj m
    /\ (m !! "datasets"%string = None
        \/ exists datasets : gmap string json,
             m !! "datasets"%string = Some (JObj datasets)).

Lemma initial_well_shaped (p : string) : well_shaped (mkMemory p initial_data).
Proof. eexists. split; [reflexivity|]. right. eexists. reflexivity. Qed.

Lemma reset_well_shaped (p ts backup : string) :
  well_shaped (mkMemory p (reset_data ts backup)).
Proof. eexists. split; [reflexivity|]. right. eexists. reflexivity. Qed.

(** Upserting into a well-shaped store does not fail; the record can be
    read back, the other fingerprints read as before, the document is
    written to the store's file. *)
Lemma upsert_spec (self : JSONMemory) (fp : string) (r : json) (fs : files) :
  well_shaped self ->
  exists (self' : JSONMemory) (fs' : files),
    upsert_dataset_record self fp r fs = Some (self', fs')
    /\ well_shaped self'
    /\ path self' = path self
    /\ fs' = <[path self := Doc (data self')]> fs
    /\ get_dataset_record self' fp = Some r
    /\ forall other : string,
         other <> fp -> get_dataset_record self' other = get_dataset_record self other.
Proof.
  intros (m & Hm & Hd). unfold upsert_dataset_record, get_dataset_record. rewrite Hm.
  destruct Hd as [Hd | [ds Hd]]; rewrite Hd; simpl.
  - rewrite lookup_insert_eq. simpl. do 2 eexists. split; [reflexivity|]. simpl.
    split. { eexists. split; [reflexivity|]. right. eexists. apply lookup_insert_eq. }
    split; [reflexivity|]. split; [reflexivity|].
    rewrite !lookup_insert_eq. simpl. rewrite lookup_insert_eq. split; [reflexivity|].
    intros other Hne. now rewrite lookup_insert_ne by congruence.
  - rewrite Hd. simpl. do 2 eexists. split; [reflexivity|]. simpl.
    split. { eexists. split; [reflexivity|]. right. eexists. apply lookup_insert_eq. }
    split; [reflexivity|]. split; [reflexivity|].
    rewrite !lookup_insert_eq. simpl. rewrite lookup_insert_eq. split; [reflexivity|].
    intros other Hne. now rewrite lookup_insert_ne by congruence.
Qed.

(** A fingerprint that is not among the upserted ones reads as before. *)
Lemma upsert_all_other (ops : list (string * json)) (other : string) :
  other ∉ ops.*1 ->
  forall (self : JSONMemory) (fs : files),
    well_shaped self ->
    exists (self' : JSONMemory) (fs' : files),
      upsert_all ops self fs = Some (self', fs')
      /\ well_shaped self'
      /\ get_dataset_record self' other = get_dataset_record self other.
Proof.
  induction ops as [|[fp r] ops IH]; intros Hnot self fs Hws.
  - exists self, fs. repeat split. exact Hws.
  - simpl in Hnot. apply not_elem_of_cons in Hnot as [Hne Hnot].
    destruct (upsert_spec self fp r fs Hws)
      as (self1 & fs1 & E & Hws1 & _ & _ & _ & Hother).
    destruct (IH Hnot self1 fs1 Hws1) as (self' & fs' & E' & Hws' & Hget).
    exists self', fs'. simpl. rewrite E. simpl. split; [exact E'|].
    split; [exact Hws'|]. rewrite Hget. now apply Hother.
Qed.

(** A store built where no file exists is the empty one. *)
Lemma init_fresh (now p : string) (fs : files) :
  fs !! p = None -> init now p fs = (mkMemory p initial_data, fs).
Proof. intros E. unfold init, _load. simpl. now rewrite E. Qed.

(** The stores on which a read does not raise are the well-shaped ones, and
    so are the stores on which an upsert does not raise. *)
Lemma get_is_Some (self : JSONMemory) (fp : string) :
  is_Some (get_dataset_record self fp) <-> well_shaped self.
Proof.
  unfold get_dataset_record, well_shaped. split.
  - intros [x Hx]. destruct (data self) as [| | | | |m]; try discriminate Hx.
    exists m. split; [reflexivity|].
    destruct (m !! "datasets"%string) as [[| | | | |ds]|]; simpl in Hx;
      try discriminate Hx.
    + right. now exists ds.
    + now left.
  - intros (m & -> & [->|[ds ->]]); simpl; eauto.
Qed.

Lemma upsert_is_Some (self : JSONMemory) (fp : string) (r : json) (fs : files) :
  is_Some (upsert_dataset_record self fp r fs) <-> well_shaped self.
Proof.
  split.
  - unfold upsert_dataset_record, well_shaped. intros [x Hx].
    destruct (data self) as [| | | | |m]; try discriminate Hx.
    exists m. split; [reflexivity|].
    destruct (m !! "datasets"%string) as [[| | | | |ds]|] eqn:E; cbn zeta in Hx;
      try (rewrite E in Hx; simpl in Hx; discriminate Hx).
    + right. now exists ds.
    + now left.
  - intros Hws. destruct (upsert_spec self fp r fs Hws) as (self' & fs' & E & _).
    rewrite E. eauto.
Qed.

(** The constructor builds a well-shaped store when there is no memory file,
    when the file is not JSON, and when it holds a document of the
    documented shape. *)
Lemma init_well_shaped (now p : string) (fs : files) :
  fs !! p = None
  \/ (exists raw, fs !! p = Some (Text raw))
  \/ (exists j, fs !! p = Some (Doc j) /\ valid_document j) ->
  well_shaped (init now p fs).1.
Proof.
  unfold init, _load. cbn [path].
  intros [E|[[raw E]|(j & E & ds & ns & -> & _)]]; rewrite E; cbn [fst].
  - apply initial_well_shaped.
  - apply reset_well_shaped.
  - eexists. split; [reflexivity|]. right. exists ds. apply lookup_insert_eq.
Qed.

(** C5, as the code has it. [get_dataset_record] and [upsert_dataset_record]
    raise exactly on the stores whose data is not an object, or holds
    something else than an object under ["datasets"].  On every other store
    an upsert followed by a read of the same fingerprint returns the record
    written, and a fingerprint that is not among the upserted ones reads as
    it did before: as absent ([None] in Python) when the store had no record
    for it.  The constructor builds such a store when there is no memory
    file, when the file is not JSON and when it holds a document of the
    documented shape; in the first two cases every fingerprint reads as
    absent. *)
Theorem upsert_get_on_shaped_store (self : JSONMemory) (fs : files)
    (fp : string) (r : json) :
  (is_Some (get_dataset_record self fp) <-> well_shaped self)
  /\ (is_Some (upsert_dataset_record self fp r fs) <-> well_shaped self)
  /\ (well_shaped self ->
      exists (self' : JSONMemory) (fs' : files),
        upsert_dataset_record self fp r fs = Some (self', fs')
        /\ well_shaped self'
        /\ get_dataset_record self' fp = Some r)
  /\ (well_shaped self ->
      forall (ops : list (string * json)) (other : string),
        other ∉ ops.*1 ->
        exists (self' : JSONMemory) (fs' : files),
          upsert_all ops self fs = Some (self', fs')
          /\ get_dataset_record self' other = get_dataset_record self other)
  /\ (forall (now p : string) (fs0 : files),
        fs0 !! p = None
        \/ (exists raw, fs0 !! p = Some (Text raw))
        \/ (exists j, fs0 !! p = Some (Doc j) /\ valid_document j) ->
        well_shaped (init now p fs0).1)
  /\ (forall (now p : string) (fs0 : files) (other : string),
        fs0 !! p = None \/ (exists raw, fs0 !! p = Some (Text raw)) ->
        get_dataset_record (init now p fs0).1 other = Some JNull).
Proof.
  split; [apply get_is_Some|]. split; [apply upsert_is_Some|].
  split; [|split; [|split]].
  - intros Hws.
    destruct (upsert_spec self fp r fs Hws) as (self' & fs' & E & Hws' & _ & _ & G & _).
    now exists self', fs'.
  - intros Hws ops other Hnot.
    destruct (upsert_all_other ops other Hnot self fs Hws) as (self' & fs' & E & _ & G).
    now exists self', fs'.
  - apply init_well_shaped.
  - intros now p fs0 other [E|[raw E]]; unfold init, _load; cbn [path]; rewrite E;
      reflexivity.
Qed.

Definition sample_record : json :=
  JObj (<["best_model" := JStr "RandomForest"]> (<["target" := JStr "y"]> ∅)).

Lemma upsert_get_on_shaped_store_witness :
  exists (self' : JSONMemory) (fs' : files),
    upsert_dataset_record (mkMemory "agent_memory.json" initial_data)
      "fp_42" sample_record ∅ = Some (self', fs')
    /\ well_shaped self'
    /\ get_dataset_record self' "fp_42" = Some sample_record.
Proof.
  apply (upsert_get_on_shaped_store (mkMemory "agent_memory.json" initial_data) ∅
           "fp_42" sample_record).
  exists (<["datasets" := JObj ∅]> (<["notes" := JArr []]> ∅) : gmap string json).
  split; [reflexivity|]. right. exists ∅. reflexivity.
Defined.

(** C5 as stated fails: a memory file that holds the JSON document
    [{"datasets": []}] is loaded as it is, and on the store built from it
    both the read and the upsert raise. *)
Lemma datasets_list_raises :
  data (init "t0" "agent_memory.json"
          (<["agent_memory.json" := Doc (JObj (<["datasets" := JArr []]> ∅))]> ∅)).1
  = JObj (<["datasets" := JArr []]> ∅)
  /\ get_dataset_record
       (init "t0" "agent_memory.json"
          (<["agent_memory.json" := Doc (JObj (<["datasets" := JArr []]> ∅))]> ∅)).1
       "fp_1" = None
  /\ upsert_dataset_record
       (init "t0" "agent_memory.json"
          (<["agent_memory.json" := Doc (JObj (<["datasets" := JArr []]> ∅))]> ∅)).1
       "fp_1" sample_record
       (init "t0" "agent_memory.json"
          (<["agent_memory.json" := Doc (JObj (<["datasets" := JArr []]> ∅))]> ∅)).2
     = None.
Proof. repeat split. Qed.

(** A file holding a document that is not of the documented shape is taken
    as it is: for the JSON text [[]], the store is built without a reset,
    and both operations raise. *)
Example ill_shaped_document_kept :
  let '(self, fs) :=
    init "t0" "agent_memory.json" (<["agent_memory.json" := Doc (JArr [])]> ∅) in
  data self = JArr []
  /\ get_dataset_record self "fp_1" = None
  /\ upsert_dataset_record self "fp_1" sample_record fs = None.
Proof. repeat split. Qed.

Lemma length_append (s t : string) :
  String.length (s +:+ t) = (String.length s + String.length t)%nat.
Proof. induction s as [|c s IH]; simpl; [reflexivity|]. now rewrite IH. Qed.

(** The backup is another file than the memory file. *)
Lemma append_ne_self (p suffix : string) : suffix <> ""%string -> (p +:+ suffix)%string <> p.
Proof.
  intros Hs E. apply Hs. apply (f_equal String.length) in E.
  rewrite length_append in E.
  destruct suffix; [reflexivity|]. simpl in E. lia.
Qed.

Lemma prefix_self (s : string) : String.prefix s s = true.
Proof.
  induction s as [|c s IH]; simpl; [reflexivity|].
  destruct (Ascii.ascii_dec c c); congruence.
Qed.

Lemma contains_self (s : string) : Py.contains s s = true.
Proof. destruct s; [reflexivity|]. unfold Py.contains. now rewrite prefix_self. Qed.

Lemma contains_append (pre s : string) : Py.contains s (pre +:+ s) = true.
Proof.
  induction pre as [|c pre IH]; simpl.
  - apply contains_self.
  - rewrite IH. apply orb_true_r.
Qed.

(** A store built on a file whose text is not JSON. *)
Lemma init_corrupt (now p raw : string) (fs : files) :
  fs !! p = Some (Text raw) ->
  init now p fs =
    (mkMemory p (reset_data now (p +:+ ".bak")),
     <[(p +:+ ".bak")%string := Text raw]> fs).
Proof. intros E. unfold init, _load. simpl. now rewrite E. Qed.

(** C6. Building the store on a file whose text [json.load] rejects
    returns a store (no exception): the text is copied to the backup file
    and no other file changes; the store's data is an empty ["datasets"]
    object and one note, whose message names the backup file; every
    fingerprint reads as absent.  A later upsert, or a plain save, succeeds
    and leaves a document of the documented shape in the memory file. *)
Theorem corrupt_file_heals (fs : files) (p raw now : string) :
  fs !! p = Some (Text raw) ->
  let self := (init now p fs).1 in
  let fs1 := (init now p fs).2 in
  let backup := (p +:+ ".bak")%string in
  let msg := ("Memory reset; backup at " +:+ backup)%string in
  path self = p
  /\ fs1 !! backup = Some (Text raw)
  /\ fs1 !! p = Some (Text raw)
  /\ (forall f : string, f <> backup -> fs1 !! f = fs !! f)
  /\ data self = JObj (<["datasets" := JObj ∅]> (<["notes" := JArr [note now msg]]> ∅))
  /\ Py.contains backup msg = true
  /\ (forall fp : string, get_dataset_record self fp = Some JNull)
  /\ (forall (fp : string) (r : json),
        exists (self' : JSONMemory) (fs2 : files) (j : json),
          upsert_dataset_record self fp r fs1 = Some (self', fs2)
          /\ fs2 !! p = Some (Doc j)
          /\ valid_document j
          /\ get_dataset_record self' fp = Some r)
  /\ (exists j : json, save self fs1 !! p = Some (Doc j) /\ valid_document j).
Proof.
  intros Hfile self fs1 backup msg. subst self fs1.
  rewrite (init_corrupt now p raw fs Hfile). cbn [fst snd path data].
  fold backup. unfold reset_data. fold backup. fold msg.
  split; [reflexivity|]. split; [apply lookup_insert_eq|].
  split.
  { rewrite lookup_insert_ne; [exact Hfile|]. now apply append_ne_self. }
  split; [intros f Hf; now apply lookup_insert_ne|].
  split; [reflexivity|]. split; [apply contains_append|].
  split; [reflexivity|].
  assert (Hnote : Forall is_note [note now msg]).
  { constructor; [|constructor]. now exists now, msg. }
  split.
  - intros fp r. do 3 eexists. split; [reflexivity|]. cbn [path data].
    split; [unfold save; cbn [path data]; apply lookup_insert_eq|].
    split.
    + exists (<[fp := r]> ∅), [note now msg]. split; [|exact Hnote].
      reflexivity.
    + unfold get_dataset_record. cbn [data]. rewrite lookup_insert_eq.
      unfold default. cbn [from_option id]. now rewrite lookup_insert_eq.
  - eexists. split; [unfold save; cbn [path data]; apply lookup_insert_eq|].
    exists ∅, [note now msg]. split; [reflexivity|exact Hnote].
Qed.

Lemma corrupt_file_heals_witness :
  exists (self' : JSONMemory) (fs2 : files) (j : json),
    upsert_dataset_record
      (init "2024-01-01T00:00:00Z" "agent_memory.json"
         (<["agent_memory.json" := Text "{not json"]> ∅)).1
      "fp_42" sample_record
      (init "2024-01-01T00:00:00Z" "agent_memory.json"
         (<["agent_memory.json" := Text "{not json"]> ∅)).2
    = Some (self', fs2)
    /\ fs2 !! "agent_memory.json" = Some (Doc j)
    /\ valid_document j
    /\ get_dataset_record self' "fp_42" = Some sample_record.
Proof.
  apply (corrupt_file_heals (<["agent_memory.json" := Text "{not json"]> ∅)
           "agent_memory.json" "{not json" "2024-01-01T00:00:00Z").
  reflexivity.
Defined.

End MemoryProperties.

(** ** The dataset fingerprint *)

Section FingerprintProperties.

Import DataProfiler.

(** The hashed string is made of the shape, the target and the column
    names only. *)
Lemma signature_ext (df1 df2 : DataFrame) (t : string) :
  column_names df1 = column_names df2 -> shape df1 = shape df2 ->
  signature df1 t = signature df2 t.
Proof. intros Hc Hs. unfold signature. now rewrite Hc, Hs. Qed.

(** Two fingerprints are equal exactly when the hash residues are. *)
Lemma fingerprint_eq_iff (hash : Z -> string -> Z) (salt1 salt2 : Z)
    (df1 df2 : DataFrame) (t1 t2 : string) :
  dataset_fingerprint hash salt1 df1 t1 = dataset_fingerprint hash salt2 df2 t2
  <-> residue hash salt1 (signature df1 t1) = residue hash salt2 (signature df2 t2).
Proof.
  unfold dataset_fingerprint. split.
  - intros E. apply (inj (String.app "fp_")) in E. now apply (inj pretty) in E.
  - now intros ->.
Qed.
















Definition two_rows : Series := mkSeries DInt64 [Some (SInt 0); Some (SInt 1)].


(** A stand-in for the interpreter's hash, to run the definitions on. *)
Definition sample_hash (salt : Z) (s : string) : Z :=
  salt + Z.of_nat (String.length s).



(** The fingerprint of one dataset is the same in two interpreter processes
    exactly when the hash residues under the two salts are. *)
Lemma fingerprint_across_processes (hash : Z -> string -> Z) (salt1 salt2 : Z)
    (df : DataFrame) (t : string) :
  dataset_fingerprint hash salt1 df t = dataset_fingerprint hash salt2 df t
  <-> residue hash salt1 (signature df t) = residue hash salt2 (signature df t).
Proof. apply fingerprint_eq_iff. Qed.

End FingerprintProperties.

(** ** Floats *)

Section FloatProperties.

Open Scope Q_scope.

Lemma two_ne_0 : ~ 2 == 0.
Proof. discriminate. Qed.

Lemma two_pow_pos (n : Z) : 0 < 2 ^ n.
Proof. now apply Qpower_0_lt. Qed.

Lemma two_pow_inject (n : Z) : (0 <= n)%Z -> inject_Z (2 ^ n) == 2 ^ n.
Proof. intros H. now rewrite Zpower_Qpower. Qed.

Lemma num_den (x : Q) : x * inject_Z (Zpos (Qden x)) == inject_Z (Qnum x).
Proof. destruct x as [n d]. unfold Qeq, Qmult, inject_Z. simpl. lia. Qed.

Lemma num_pos (x : Q) : 0 < x -> (0 < Qnum x)%Z.
Proof. destruct x as [n d]. unfold Qlt. simpl. lia. Qed.

(** [ilog2 x] is the exponent of the binade of [x]. *)
Lemma ilog2_spec (x : Q) : 0 < x -> 2 ^ ilog2 x <= x /\ x < 2 ^ (ilog2 x + 1).
Proof.
  intros Hx. pose proof (num_pos x Hx) as Hn.
  unfold ilog2.
  set (n := Qnum x) in *. set (d := Zpos (Qden x)).
  assert (Hd : (0 < d)%Z) by (unfold d; lia).
  set (a := Z.log2 n). set (b := Z.log2 d). set (k := (a - b)%Z).
  pose proof (Z.log2_spec n Hn) as [Ha1 Ha2]. fold a in Ha1, Ha2.
  pose proof (Z.log2_spec d Hd) as [Hb1 Hb2]. fold b in Hb1, Hb2.
  pose proof (Z.log2_nonneg n) as Ha0. fold a in Ha0.
  pose proof (Z.log2_nonneg d) as Hb0. fold b in Hb0.
  assert (Hdq : 0 < inject_Z d)
    by (change (inject_Z 0 < inject_Z d); rewrite <- Zlt_Qlt; exact Hd).
  assert (Hxd : x * inject_Z d == inject_Z n) by apply num_den.
  assert (Hup : x < 2 ^ (k + 1)).
  { apply (Qmult_lt_r _ _ (inject_Z d) Hdq). rewrite Hxd.
    apply Qlt_le_trans with (inject_Z (2 ^ Z.succ a)).
    - now rewrite <- Zlt_Qlt.
    - rewrite two_pow_inject by lia.
      replace (Z.succ a) with (k + 1 + b)%Z by (unfold k; lia).
      rewrite Qpower_plus by apply two_ne_0.
      apply Qmult_le_l; [apply two_pow_pos|].
      rewrite <- two_pow_inject by lia. now rewrite <- Zle_Qle. }
  assert (Hlo : 2 ^ (k - 1) < x).
  { apply (Qmult_lt_r _ _ (inject_Z d) Hdq). rewrite Hxd.
    apply Qlt_le_trans with (inject_Z (2 ^ a)).
    - rewrite two_pow_inject by lia.
      replace (2 ^ a) with (2 ^ (k - 1 + Z.succ b)) by (f_equal; unfold k; lia).
      rewrite Qpower_plus by apply two_ne_0.
      apply Qmult_lt_l; [apply two_pow_pos|].
      rewrite <- two_pow_inject by lia. now rewrite <- Zlt_Qlt.
    - now rewrite <- Zle_Qle. }
  destruct (Qle_bool (2 ^ k) x) eqn:E.
  - apply Qle_bool_iff in E. split; assumption.
  - split; [now apply Qlt_le_weak|].
    replace (k - 1 + 1)%Z with k by lia.
    apply Qnot_le_lt. intros H. apply Qle_bool_iff in H. congruence.
Qed.

Lemma ilog2_mono (x y : Q) : 0 < x -> x <= y -> (ilog2 x <= ilog2 y)%Z.
Proof.
  intros Hx Hxy.
  assert (Hy : 0 < y) by lra.
  destruct (ilog2_spec x Hx) as [H1 _]. destruct (ilog2_spec y Hy) as [_ H2].
  assert (H : 2 ^ ilog2 x < 2 ^ (ilog2 y + 1)) by lra.
  apply Qpower_lt_compat_l_inv in H; [lia|reflexivity].
Qed.

Lemma round_half_even_bounds (q : Q) :
  (Qfloor q <= round_half_even q <= Qfloor q + 1)%Z.
Proof.
  unfold round_half_even. destruct (_ ?= _)%Q; [destruct (Z.even _)| |]; lia.
Qed.

Lemma round_half_even_Z (n : Z) : round_half_even (inject_Z n) = n.
Proof.
  unfold round_half_even. rewrite Qfloor_Z. cbv zeta.
  destruct (Qcompare_spec (inject_Z n - inject_Z n) (1 # 2)); [lra|reflexivity|lra].
Qed.

Lemma round_half_even_mono (q q' : Q) :
  q <= q' -> (round_half_even q <= round_half_even q')%Z.
Proof.
  intros Hq. pose proof (Qfloor_resp_le _ _ Hq) as Hf.
  destruct (Z.eq_dec (Qfloor q) (Qfloor q')) as [E|E].
  - unfold round_half_even. rewrite <- E.
    destruct (Qcompare_spec (q - inject_Z (Qfloor q)) (1 # 2));
      destruct (Qcompare_spec (q' - inject_Z (Qfloor q)) (1 # 2));
      destruct (Z.even (Qfloor q)); first [lia | lra].
  - pose proof (round_half_even_bounds q). pose proof (round_half_even_bounds q').
    lia.
Qed.

(** The rounded value stays in the closed binade of its argument. *)
Lemma binary64_pos_bounds (x : Q) :
  0 < x -> 2 ^ ilog2 x <= binary64_pos x /\ binary64_pos x <= 2 ^ (ilog2 x + 1).
Proof.
  intros Hx. destruct (ilog2_spec x Hx) as [H1 H2].
  unfold binary64_pos. rewrite Qred_correct.
  set (e := ilog2 x) in *.
  set (y := x * 2 ^ (- (e - 52))).
  assert (Hy1 : inject_Z (2 ^ 52) <= y).
  { rewrite two_pow_inject by lia. unfold y.
    replace 52%Z with (e + - (e - 52))%Z at 1 by lia.
    rewrite Qpower_plus by apply two_ne_0.
    apply Qmult_le_r; [apply two_pow_pos|exact H1]. }
  assert (Hy2 : y <= inject_Z (2 ^ 53)).
  { rewrite two_pow_inject by lia. unfold y.
    replace 53%Z with (e + 1 + - (e - 52))%Z at 1 by lia.
    rewrite Qpower_plus by apply two_ne_0.
    apply Qmult_le_r; [apply two_pow_pos|now apply Qlt_le_weak]. }
  apply round_half_even_mono in Hy1, Hy2. rewrite round_half_even_Z in Hy1, Hy2.
  split.
  - replace e with (52 + (e - 52))%Z at 1 by lia.
    rewrite Qpower_plus by apply two_ne_0.
    apply Qmult_le_r; [apply two_pow_pos|].
    rewrite <- two_pow_inject by lia. now rewrite <- Zle_Qle.
  - replace (e + 1)%Z with (53 + (e - 52))%Z by lia.
    rewrite Qpower_plus by apply two_ne_0.
    apply Qmult_le_r; [apply two_pow_pos|].
    rewrite <- two_pow_inject by lia. now rewrite <- Zle_Qle.
Qed.

Lemma binary64_pos_mono (x y : Q) :
  0 < x -> x <= y -> binary64_pos x <= binary64_pos y.
Proof.
  intros Hx Hxy. assert (Hy : 0 < y) by lra.
  pose proof (ilog2_mono x y Hx Hxy) as He.
  destruct (Z.eq_dec (ilog2 x) (ilog2 y)) as [E|E].
  - unfold binary64_pos. rewrite !Qred_correct, <- E.
    apply Qmult_le_r; [apply two_pow_pos|].
    rewrite <- Zle_Qle. apply round_half_even_mono.
    apply Qmult_le_r; [apply two_pow_pos|exact Hxy].
  - destruct (binary64_pos_bounds x Hx) as [_ H1].
    destruct (binary64_pos_bounds y Hy) as [H2 _].
    assert (H : 2 ^ (ilog2 x + 1) <= 2 ^ ilog2 y).
    { apply Qpower_le_compat_l; [lia|discriminate]. }
    lra.
Qed.

Lemma binary64_of_pos (x : Q) : 0 < x -> binary64 x = binary64_pos x.
Proof.
  intros Hx. apply num_pos in Hx. unfold binary64.
  destruct (Qnum x); [lia|reflexivity|lia].
Qed.

(** Rounding to the nearest float keeps the order of positive numbers. *)
Lemma binary64_mono (x y : Q) : 0 < x -> x <= y -> binary64 x <= binary64 y.
Proof.
  intros Hx Hxy. rewrite !binary64_of_pos by lra. now apply binary64_pos_mono.
Qed.

(** A float below [x] is below the float nearest to [x]. *)
Lemma binary64_ge (k : Z) (x : Q) :
  (1 <= k)%Z -> binary64 (inject_Z k) = inject_Z k ->
  inject_Z k <= x -> inject_Z k <= binary64 x.
Proof.
  intros Hk E Hx. rewrite <- E at 1. apply binary64_mono; [|exact Hx].
  change (inject_Z 0 < inject_Z k). rewrite <- Zlt_Qlt. lia.
Qed.

(** Rounding to three decimals does not go below a whole number that the
    value reaches. *)
Lemma decimal3_lower (k : Z) (q : Q) : inject_Z k <= q -> inject_Z k <= decimal3 q.
Proof.
  intros Hq. unfold decimal3. rewrite Qred_correct.
  assert (H1 : inject_Z (k * 1000) <= q * 1000).
  { destruct q as [n d]. unfold Qle in *. simpl in *. lia. }
  apply Qfloor_resp_le in H1. rewrite Qfloor_Z in H1.
  pose proof (round_half_even_bounds (q * 1000)).
  unfold Qle. simpl. lia.
Qed.

Lemma round3_lower (k : Z) (q : Q) :
  (1 <= k)%Z -> binary64 (inject_Z k) = inject_Z k ->
  inject_Z k <= q -> inject_Z k <= round3 q.
Proof.
  intros Hk E Hq. unfold round3. apply binary64_ge; [exact Hk|exact E|].
  now apply decimal3_lower.
Qed.

End FloatProperties.

(** ** The imbalance ratio of a profile *)

Section ProfilerProperties.

Import DataProfiler.

Definition positive_counts (vc : list (cell * Z)) : Prop :=
  Forall (fun x => 1 <= x.2) vc.

Lemma count_cell_positive (c : cell) (vc : list (cell * Z)) :
  positive_counts vc -> positive_counts (count_cell c vc).
Proof.
  unfold positive_counts. induction 1 as [|[c' n] vc Hn Hvc IH]; simpl.
  - constructor; [simpl; lia | constructor].
  - destruct (cell_eqb c' c); constructor; simpl in *;
      first [lia | assumption].
Qed.

Lemma value_counts_positive (s : Series) : positive_counts (value_counts s).
Proof.
  unfold value_counts.
  assert (H : forall cs acc, positive_counts acc ->
                positive_counts (foldl (fun vc c => count_cell c vc) acc cs)).
  { induction cs as [|c cs IH]; intros acc Hacc; simpl; [exact Hacc|].
    apply IH, count_cell_positive, Hacc. }
  apply H. constructor.
Qed.

(** The guard [max(vc.min(), 1)] never changes the smallest count. *)
Lemma vc_min_positive (vc : list (cell * Z)) :
  positive_counts vc -> vc <> [] -> 1 <= vc_min vc.
Proof.
  unfold vc_min, positive_counts. intros H Hne.
  destruct vc as [|[c n] vc]; [congruence|]. simpl.
  apply Forall_cons in H as [Hn H]. simpl in Hn. clear Hne.
  induction H as [|[c' n'] vc Hn' H IH]; simpl in *; lia.
Qed.

(** The number of distinct values of a target column, a missing value (NaN)
    counting as a value of its own, and the numbers of rows of the most and
    of the least frequent of them. *)
Definition n_classes (y : Series) : Z := Z.of_nat (length (value_counts y)).
Definition majority_count (y : Series) : Z := vc_max (value_counts y).
Definition minority_count (y : Series) : Z := vc_min (value_counts y).

(** C8, as the code has it. For a target that is a column of the data,
    [profile_dataset] returns a profile whose [imbalance_ratio] is

      - [None] when the target is not a classification target,
      - 1.0 when it is one whose column holds fewer than two distinct values,
        a missing value counting as a value of its own,
      - otherwise the float quotient of the largest by the smallest of the
        row counts of these values, rounded to three decimals;

    in the first two cases a reader that takes [imbalance_ratio or 1.0]
    gets 1.0. *)
Theorem profile_dataset_imbalance_ratio (df : DataFrame) (target : string)
    (y : Series) :
  getitem (df_columns df) target = Some y ->
  exists p : Profile,
    profile_dataset df target = Some p
    /\ is_classification p = is_classification_target y
    /\ imbalance_ratio p =
         (if is_classification_target y then
            if 2 <=? n_classes y then
              Val (round3 (truediv (float (majority_count y))
                                   (float (minority_count y))))
            else Val 1%Q
          else IsNone)
    /\ (is_classification_target y = false \/ n_classes y < 2 ->
        get_or (imbalance_ratio p) 1 = 1%Q).
Proof.
  intros Hy. unfold profile_dataset. rewrite Hy. simpl.
  unfold n_classes, majority_count, minority_count.
  destruct (is_classification_target y) eqn:Hc.
  - eexists. split; [reflexivity|]. simpl. split; [reflexivity|].
    unfold class_ratio.
    destruct (2 <=? Z.of_nat (length (value_counts y))) eqn:Hn.
    + rewrite Z.max_l.
      * split; [reflexivity|]. intros [H|H]; [discriminate H|]. lia.
      * apply vc_min_positive; [apply value_counts_positive|].
        intros E. rewrite E in Hn. discriminate Hn.
    + split; reflexivity.
  - eexists. split; [reflexivity|]. simpl. repeat split.
Qed.

(** A float column with 51 distinct values: not a classification target. *)
Definition regression_frame : DataFrame :=
  mkDataFrame 51
    [ ("x"%string, mkSeries DInt64 ((fun i => Some (SInt (Z.of_nat i))) <$> seq 0 51));
      ("y"%string,
       mkSeries DFloat64 ((fun i => Some (SFloat (inject_Z (Z.of_nat i)))) <$> seq 0 51)) ].

(** Three rows of one class. *)
Definition one_class : DataFrame :=
  mkDataFrame 3 [ ("y"%string, mkSeries DInt64 (replicate 3 (Some (SInt 0)))) ].

(** Seven rows of one class and three of the other. *)
Definition seven_three : DataFrame :=
  mkDataFrame 10
    [ ("y"%string,
       mkSeries DInt64 (replicate 7 (Some (SInt 0)) ++ replicate 3 (Some (SInt 1)))) ].

Lemma profile_dataset_imbalance_ratio_witness :
  (exists p : Profile,
     profile_dataset regression_frame "y" = Some p
     /\ is_classification p = false
     /\ imbalance_ratio p = IsNone)
  /\ (exists p : Profile,
        profile_dataset one_class "y" = Some p
        /\ is_classification p = true
        /\ imbalance_ratio p = Val 1%Q)
  /\ (exists p : Profile,
        profile_dataset seven_three "y" = Some p
        /\ is_classification p = true
        /\ imbalance_ratio p = Val (binary64 2.333)).
Proof.
  split; [|split].
  - destruct (profile_dataset_imbalance_ratio regression_frame "y"
                (mkSeries DFloat64
                   ((fun i => Some (SFloat (inject_Z (Z.of_nat i)))) <$> seq 0 51))
                eq_refl) as (p & Hp & Hc & Hr & _).
    exists p. split; [exact Hp|]. split; [exact Hc|exact Hr].
  - destruct (profile_dataset_imbalance_ratio one_class "y"
                (mkSeries DInt64 (replicate 3 (Some (SInt 0))))
                eq_refl) as (p & Hp & Hc & Hr & _).
    exists p. split; [exact Hp|]. split; [exact Hc|exact Hr].
  - destruct (profile_dataset_imbalance_ratio seven_three "y"
                (mkSeries DInt64
                   (replicate 7 (Some (SInt 0)) ++ replicate 3 (Some (SInt 1))))
                eq_refl) as (p & Hp & Hc & Hr & _).
    exists p. split; [exact Hp|]. split; [exact Hc|].
    rewrite Hr. vm_compute. reflexivity.
Defined.

(** C8 as stated fails: for a target that is not a classification target
    the profile holds [None], not 1.0. *)
Lemma regression_ratio_is_none :
  exists p : Profile,
    profile_dataset regression_frame "y" = Some p
    /\ is_classification p = false
    /\ imbalance_ratio p = IsNone
    /\ imbalance_ratio p <> Val 1%Q.
Proof. eexists. split; [vm_compute; reflexivity|]. repeat split. discriminate. Qed.

(** Seven rows against three: the profile holds the float 2.333, not 7/3. *)
Example ratio_is_rounded :
  exists p : Profile,
    profile_dataset seven_three "y" = Some p
    /\ imbalance_ratio p = Val (binary64 2.333)
    /\ ~ (binary64 2.333 == 7 # 3)%Q.
Proof.
  eexists. split; [vm_compute; reflexivity|]. split; [vm_compute; reflexivity|].
  vm_compute. discriminate.
Qed.

(** The quotient is rounded as a float: 5999 rows against 2000 give the
    float nearest to 2.9995, which is below it, and the profile holds
    2.999; the exact quotient would give 3.0. *)
Example ratio_of_float_quotient :
  exists p : Profile,
    profile_dataset
      (mkDataFrame (Z.to_nat 7999)
         [("y"%string,
           mkSeries DInt64 (replicate (Z.to_nat 5999) (Some (SInt 0))
                            ++ replicate (Z.to_nat 2000) (Some (SInt 1))))])
      "y" = Some p
    /\ imbalance_ratio p = Val (binary64 2.999)
    /\ (truediv (float 5999) (float 2000) < 5999 # 2000)%Q
    /\ decimal3 (5999 # 2000) = 3%Q.
Proof.
  eexists. split; [vm_compute; reflexivity|]. split; [vm_compute; reflexivity|].
  split; vm_compute; reflexivity.
Qed.

(** A missing value is a class of its own: three rows of one value and one
    row without a value give the ratio 3.0, and the imbalance note. *)
Example missing_value_is_a_class :
  exists p : Profile,
    profile_dataset
      (mkDataFrame 4
         [("y"%string,
           mkSeries DFloat64 (replicate 3 (Some (SFloat 0)) ++ [None]))])
      "y" = Some p
    /\ imbalance_ratio p = Val 3%Q
    /\ imbalance_note ∈ get_default (notes p) [].
Proof.
  eexists. split; [vm_compute; reflexivity|]. split; [reflexivity|].
  apply (bool_decide_unpack _). vm_compute. exact I.
Qed.

End ProfilerProperties.

(** ** The ranking of the trained candidates *)

Section ModellingProperties.

Import Modelling.

(** The order on sort keys is the lexicographic one. *)
Lemma key_lt_true (a b : Q * Q) :
  key_lt a b = true <-> (a.1 < b.1 \/ (a.1 == b.1 /\ a.2 < b.2))%Q.
Proof.
  unfold key_lt. rewrite orb_true_iff, andb_true_iff, !lt_spec, Qeq_bool_iff.
  reflexivity.
Qed.

Lemma key_lt_false (a b : Q * Q) :
  key_lt a b = false <-> (b.1 < a.1 \/ (a.1 == b.1 /\ b.2 <= a.2))%Q.
Proof.
  rewrite <- not_true_iff_false, key_lt_true.
  destruct (Q_dec a.1 b.1) as [[H|H]|H]; destruct (Qlt_le_dec a.2 b.2) as [H'|H'];
    split; intros G; first [lra | exfalso; apply G; lra].
Qed.

Lemma key_eq_true (a b : Q * Q) :
  key_eq a b = true <-> (a.1 == b.1 /\ a.2 == b.2)%Q.
Proof. unfold key_eq. now rewrite andb_true_iff, !Qeq_bool_iff. Qed.

(** [a] is ranked no lower than [b]: its key is not the smaller one. *)
Definition ranks_before (a b : Result) : Prop :=
  key_lt (sort_key a) (sort_key b) = false.

Lemma ranks_before_trans (a b c : Result) :
  ranks_before a b -> ranks_before b c -> ranks_before a c.
Proof. unfold ranks_before. rewrite !key_lt_false. lra. Qed.

Lemma ranks_before_total (a b : Result) :
  key_lt (sort_key a) (sort_key b) = true -> ranks_before b a.
Proof. unfold ranks_before. rewrite key_lt_true, key_lt_false. lra. Qed.

(** Entries whose key is [k]. *)
Definition has_key (k : Q * Q) (r : Result) : Prop :=
  key_eq k (sort_key r) = true.

#[local] Instance has_key_dec (k : Q * Q) (r : Result) : Decision (has_key k r).
Proof. unfold has_key. apply _. Defined.

Lemma insert_desc_perm (x : Result) (l : list Result) : insert_desc x l ≡ₚ x :: l.
Proof.
  induction l as [|y l IH]; simpl; [reflexivity|].
  destruct (key_lt _ _); [|reflexivity].
  rewrite IH. apply Permutation_swap.
Qed.

Lemma sort_desc_perm (l : list Result) : sort_desc l ≡ₚ l.
Proof.
  induction l as [|x l IH]; simpl; [reflexivity|].
  rewrite insert_desc_perm. now rewrite IH.
Qed.

Lemma insert_desc_sorted (x : Result) (l : list Result) :
  StronglySorted ranks_before l -> StronglySorted ranks_before (insert_desc x l).
Proof.
  induction 1 as [|y l Hl IH Hy]; simpl.
  - repeat constructor.
  - destruct (key_lt (sort_key x) (sort_key y)) eqn:E.
    + constructor; [exact IH|].
      rewrite insert_desc_perm. constructor; [|exact Hy].
      now apply ranks_before_total.
    + constructor; [constructor; assumption|].
      constructor; [exact E|].
      eapply Forall_impl; [exact Hy|]. intros z Hz.
      eapply ranks_before_trans; [exact E|exact Hz].
Qed.

Lemma sort_desc_sorted (l : list Result) : StronglySorted ranks_before (sort_desc l).
Proof.
  induction l as [|x l IH]; simpl; [constructor|].
  now apply insert_desc_sorted.
Qed.


(** Inserting keeps the entries of any one key in their order. *)
Lemma insert_desc_stable (k : Q * Q) (x : Result) (l : list Result) :
  filter (has_key k) (insert_desc x l) = filter (has_key k) (x :: l).
Proof.
  induction l as [|y l IH]; simpl; [reflexivity|].
  destruct (key_lt (sort_key x) (sort_key y)) eqn:E; [|reflexivity].
  rewrite !filter_cons, IH, filter_cons.
  destruct (decide (has_key k y)) as [Hy|Hy]; [|reflexivity].
  destruct (decide (has_key k x)) as [Hx|Hx]; [|reflexivity].
  exfalso. unfold has_key in *. apply key_eq_true in Hx, Hy.
  apply key_lt_true in E. lra.
Qed.

Lemma sort_desc_stable (k : Q * Q) (l : list Result) :
  filter (has_key k) (sort_desc l) = filter (has_key k) l.
Proof.
  induction l as [|x l IH]; simpl; [reflexivity|].
  now rewrite insert_desc_stable, !filter_cons, IH.
Qed.


Definition sample_scores (name : string) (model : estimator) : Scores :=
  if String.eqb name "DummyMostFrequent" then mkScores 0.9 0.5 0.47 0.45 0.5
  else if String.eqb name "LogisticRegression" then mkScores 0.9 0.7 0.66 0.7 0.7
  else if String.eqb name "RandomForest" then mkScores 0.92 0.7 0.66 0.7 0.7
  else mkScores 0.93 0.8 0.75 0.8 0.8.

Definition sample_frame : DataProfiler.DataFrame :=
  DataProfiler.mkDataFrame 10
    [ ("x"%string,
       DataProfiler.mkSeries DataProfiler.DInt64
         ((fun i => Some (DataProfiler.SInt (Z.of_nat i))) <$> seq 0 10));
      ("y"%string,
       DataProfiler.mkSeries DataProfiler.DInt64
         (replicate 9 (Some (DataProfiler.SInt 0)) ++ [Some (DataProfiler.SInt 1)])) ].

Definition sample_profile : Profile :=
  mkProfile 10 2 ["x"; "y"]%string "y" true (Val 9%Q) (Some []).


End ModellingProperties.

(** ** The orchestrator's loop *)

Section OrchestratorProperties.

Import Orchestrator.

Variable fit_and_score : nat -> Profile -> string -> Modelling.estimator -> Modelling.Scores.
Variable now_iso : nat -> string.
Variable df : DataProfiler.DataFrame.
Variable ctx : RunContext.
Variable fp : string.

#[local] Abbreviation loop := (run_loop fit_and_score now_iso df ctx fp).

(** The replans the budget still allows in state [s]. *)
Definition budget_left (s : state) : nat :=
  Z.to_nat (max_replans ctx - replan_count s).

(** The loop has stopped in state [s']: normally, or on an exception. *)
Definition stopped (o : outcome) (s' : state) : Prop :=
  o = Done s' \/ o = Raised s'.

(** With more fuel than the budget allows replans, the loop stops, after
    at most one cycle more than the replans left, and at most that many
    replans. *)
Lemma run_loop_bounded (fuel : nat) :
  forall (i : nat) (s : state),
    (budget_left s < fuel)%nat ->
    exists s' : state,
      stopped (loop fuel i s) s'
      /\ (cycles s' <= cycles s + budget_left s + 1)%nat
      /\ (replans s' <= replans s + budget_left s)%nat.
Proof.
  induction fuel as [|fuel IH]; intros i s Hfuel; [lia|].
  simpl.
  destruct (Modelling.train_models _ _ _ _) as [results|].
  2:{ exists s. split; [now right|]. lia. }
  set (reflection := Reflector.reflect _ _ _).
  destruct (Memory.upsert_dataset_record _ _ _ _) as [[memory' fs']|].
  2:{ eexists. split; [now right|]. unfold cycles, replans. simpl.
      rewrite !filter_app, !length_app. simpl. lia. }
  destruct (negb (Reflector.should_replan reflection)).
  { eexists. split; [now left|]. unfold cycles, replans. simpl.
    rewrite !filter_app, !length_app. simpl. lia. }
  simpl.
  destruct (max_replans ctx <=? replan_count s) eqn:Hmax.
  { eexists. split; [now left|]. unfold cycles, replans. simpl.
    rewrite !filter_app, !length_app. simpl. lia. }
  apply Z.leb_gt in Hmax.
  match goal with |- context [loop fuel (S i) ?x] => set (s1 := x) end.
  assert (Hb : budget_left s = S (budget_left s1)).
  { unfold budget_left. subst s1. simpl. lia. }
  destruct (IH (S i) s1) as (s' & Hstop & Hc & Hr); [lia|].
  exists s'. split; [exact Hstop|].
  assert (Hc1 : cycles s1 = S (cycles s)).
  { unfold cycles. subst s1. simpl. rewrite !filter_app, !length_app. simpl. lia. }
  assert (Hr1 : replans s1 = S (replans s)).
  { unfold replans. subst s1. simpl. rewrite !filter_app, !length_app. simpl. lia. }
  lia.
Qed.

(** Once the loop has stopped, more fuel changes nothing. *)
Lemma run_loop_fuel_mono (fuel : nat) :
  forall (i : nat) (s s' : state) (fuel' : nat),
    stopped (loop fuel i s) s' -> (fuel <= fuel')%nat ->
    loop fuel' i s = loop fuel i s.
Proof.
  induction fuel as [|fuel IH]; intros i s s' fuel' Hstop Hle.
  { destruct Hstop as [H|H]; discriminate H. }
  destruct fuel' as [|fuel']; [lia|].
  simpl in *.
  destruct (Modelling.train_models _ _ _ _) as [results|]; [|reflexivity].
  destruct (Memory.upsert_dataset_record _ _ _ _) as [[memory' fs']|]; [|reflexivity].
  destruct (negb _); [reflexivity|]. simpl in *.
  destruct (max_replans ctx <=? replan_count s); [reflexivity|].
  apply (IH _ _ s'); [exact Hstop|lia].
Qed.

End OrchestratorProperties.

(** C1. With [max_replans = N >= 0], whatever the training stage reports
    in each cycle (and so whatever the reflector says, a recommendation to
    replan in every cycle included), the loop entered with a replan counter
    of zero stops: [N + 1] iterations of fuel are enough and more fuel gives
    the same outcome.  When it has stopped it has made at most [N] replan
    transitions and at most [N + 1] train/evaluate/reflect cycles. *)
Theorem run_loop_terminates
    (fit_and_score : nat -> Profile -> string -> Modelling.estimator -> Modelling.Scores)
    (now_iso : nat -> string) (df : DataProfiler.DataFrame)
    (ctx : Orchestrator.RunContext) (fp : string)
    (plan : list string) (profile : Profile)
    (memory : Memory.JSONMemory) (fs : Memory.files) :
  0 <= Orchestrator.max_replans ctx ->
  let N := Orchestrator.max_replans ctx in
  let start := Orchestrator.mkState 0 plan profile memory fs [] in
  exists (o : Orchestrator.outcome) (s' : Orchestrator.state),
    (forall fuel : nat,
       (Z.to_nat N < fuel)%nat ->
       Orchestrator.run_loop fit_and_score now_iso df ctx fp fuel 0 start = o)
    /\ stopped o s'
    /\ Z.of_nat (Orchestrator.replans s') <= N
    /\ Z.of_nat (Orchestrator.cycles s') <= N + 1.
Proof.
  intros HN N start.
  destruct (run_loop_bounded fit_and_score now_iso df ctx fp (S (Z.to_nat N)) 0 start)
    as (s' & Hstop & Hc & Hr).
  { unfold budget_left. subst start. simpl. rewrite Z.sub_0_r. fold N. lia. }
  eexists. exists s'. split; [|split; [exact Hstop|]].
  - intros fuel Hfuel.
    apply (run_loop_fuel_mono _ _ _ _ _ _ _ _ s'); [exact Hstop|lia].
  - unfold budget_left, Orchestrator.cycles, Orchestrator.replans in *.
    subst start. simpl in *. rewrite Z.sub_0_r in *. fold N in Hc, Hr. lia.
Qed.

(** A training stage whose candidates all score a macro-F1 of 0.30: the
    reflector recommends a replan in every cycle. *)
Definition poor_scores (i : nat) (p : Profile) (name : string)
    (model : Modelling.estimator) : Modelling.Scores :=
  Modelling.mkScores 0.5 0.5 0.3 0.3 0.5.

Definition sample_clock (i : nat) : string := "2024-01-01T00:00:00Z".

Definition sample_ctx (n : Z) : Orchestrator.RunContext :=
  Orchestrator.mkRunContext "20240101_000000_abcdef12" "2024-01-01T00:00:00Z"
    "data/example_dataset.csv" "y" "outputs/20240101_000000_abcdef12" 42 0.2 n.

Definition sample_start : Orchestrator.state :=
  Orchestrator.mkState 0 Planner.base_plan sample_profile
    (Memory.mkMemory "agent_memory.json" Memory.initial_data) ∅ [].

Lemma run_loop_terminates_witness :
  exists (o : Orchestrator.outcome) (s' : Orchestrator.state),
    (forall fuel : nat,
       (2 < fuel)%nat ->
       Orchestrator.run_loop poor_scores sample_clock sample_frame (sample_ctx 2)
         "fp_1" fuel 0 sample_start = o)
    /\ stopped o s'
    /\ Z.of_nat (Orchestrator.replans s') <= 2
    /\ Z.of_nat (Orchestrator.cycles s') <= 2 + 1.
Proof.
  apply (run_loop_terminates poor_scores sample_clock sample_frame (sample_ctx 2)
           "fp_1" Planner.base_plan sample_profile
           (Memory.mkMemory "agent_memory.json" Memory.initial_data) ∅).
  simpl. lia.
Defined.

(** The bounds are reached: with a budget of two and a reflector that
    recommends a replan in every cycle, the loop makes two replans and three
    cycles, and the plan has grown by two entries. *)
Example persistent_replans_use_the_budget :
  exists s' : Orchestrator.state,
    Orchestrator.run_loop poor_scores sample_clock sample_frame (sample_ctx 2)
      "fp_1" 3 0 sample_start = Orchestrator.Done s'
    /\ Orchestrator.replans s' = 2%nat
    /\ Orchestrator.cycles s' = 3%nat
    /\ Orchestrator.replan_count s' = 2
    /\ Orchestrator.plan s'
       = Planner.base_plan ++ ["replan_attempt"; "replan_attempt"]%string.
Proof. eexists. split; [vm_compute; reflexivity|]. repeat split. Qed.

(** With a budget of zero the loop makes one cycle and no replan. *)
Example no_budget_one_cycle :
  exists s' : Orchestrator.state,
    Orchestrator.run_loop poor_scores sample_clock sample_frame (sample_ctx 0)
      "fp_1" 1 0 sample_start = Orchestrator.Done s'
    /\ Orchestrator.replans s' = 0%nat
    /\ Orchestrator.cycles s' = 1%nat.
Proof. eexists. split; [vm_compute; reflexivity|]. repeat split. Qed.

(* ===================================================================== *)
(** * Part III: further properties of the code                           *)
(* ===================================================================== *)

(** ** Candidate selection and the imbalance threshold *)

Section SelectionProperties.

Import Planner Reflector Modelling.

(** Whether the consumers of a profile treat it as imbalanced. *)
Definition imbalanced (p : Profile) : bool :=
  ge (get_or (imbalance_ratio p) 1) 3.

Definition imbalance_suggestion : string :=
  "Imbalance detected: consider class_weight, threshold tuning, or SMOTE.".

(** The names of the candidates, in order. *)
Lemma select_models_names (p : Profile) (seed : Z) :
  (select_models p seed).*1 =
    ["DummyMostFrequent"; "LogisticRegression"; "RandomForest"]%string
    ++ (if shape_rows p <=? 50000 then ["GradientBoosting"%string] else [])
    ++ (if (shape_rows p <=? 20000) && (shape_cols p <=? 200)
        then ["SVC_RBF"%string] else []).
Proof.
  unfold select_models.
  destruct (ge _ _); destruct (_ <=? 50000); destruct (_ && _); reflexivity.
Qed.

(** X1. [select_models] always proposes the dummy baseline, the logistic
    regression and the random forest, in this order, then the gradient
    boosting for at most 50000 rows and the SVC for at most 20000 rows and
    200 columns; the names are distinct, and the SVC never comes without
    the gradient boosting. *)
Theorem select_models_candidates (p : Profile) (seed : Z) :
  let names := (select_models p seed).*1 in
  ["DummyMostFrequent"; "LogisticRegression"; "RandomForest"]%string `prefix_of` names
  /\ NoDup names
  /\ (3 <= length names <= 5)%nat
  /\ ("GradientBoosting"%string ∈ names <-> shape_rows p <= 50000)
  /\ ("SVC_RBF"%string ∈ names <-> shape_rows p <= 20000 /\ shape_cols p <= 200)
  /\ ("SVC_RBF"%string ∈ names -> "GradientBoosting"%string ∈ names).
Proof.
  intros names. subst names. rewrite (select_models_names p seed).
  destruct (Z.leb_spec (shape_rows p) 50000) as [H1|H1];
    destruct (Z.leb_spec (shape_rows p) 20000) as [H2|H2];
    destruct (Z.leb_spec (shape_cols p) 200) as [H3|H3];
    try lia; cbn [andb app];
    (split; [eexists; reflexivity|]);
    (split; [apply (bool_decide_unpack _); vm_compute; exact I|]);
    (split; [cbn [length]; lia|]);
    repeat split; intros;
    first [ lia
          | apply (bool_decide_unpack _); vm_compute; exact I
          | exfalso;
            match goal with
            | H : _ ∈ _ |- _ =>
                revert H; apply (bool_decide_unpack _); vm_compute; exact I
            end ].
Qed.

(** X2. The planner, the reflector and the model selection use one test for
    imbalance: the imbalance task is in the plan, the imbalance suggestion
    is among the reflector's suggestions, and the logistic regression gets
    balanced class weights, all exactly when the ratio read as
    [imbalance_ratio or 1.0] is at least 3.0. *)
Theorem imbalance_threshold_agrees (p : Profile) (hint : json) (seed : Z)
    (evaluation : MetricsDict) (all_metrics : list MetricsDict) :
  (exists plan : list string,
     create_plan p hint = Some plan
     /\ (imbalance_task ∈ plan <-> imbalanced p = true))
  /\ (imbalance_suggestion ∈ suggestions (reflect p evaluation all_metrics)
      <-> imbalanced p = true)
  /\ (("LogisticRegression"%string, LogisticRegression 2000 (Some "balanced"%string))
        ∈ select_models p seed <-> imbalanced p = true).
Proof.
  unfold imbalanced. split; [|split].
  - unfold create_plan. destruct (ge _ _); eexists; (split; [reflexivity|]);
      split; intros H; try reflexivity; try discriminate H.
    + apply (bool_decide_unpack _). vm_compute. exact I.
    + exfalso. revert H. apply (bool_decide_unpack _). vm_compute. exact I.
  - unfold reflect.
    destruct (List.find _ _) as [d|]; [destruct (Py.lt (_ - _) _)|];
      destruct (Py.lt (get_default _ _) _); destruct (ge _ _);
      cbn -[elem_of format_3f];
      split; intros H; try reflexivity; try discriminate H;
      rewrite ?elem_of_cons, ?elem_of_nil in *;
      try (intuition discriminate); tauto.
  - unfold select_models. destruct (ge _ _);
      destruct (_ <=? 50000); destruct (_ && _);
      cbn -[elem_of]; split; intros H; try reflexivity; try discriminate H;
      rewrite ?elem_of_cons, ?elem_of_nil in *;
      try (intuition discriminate); tauto.
Qed.

(** X3. A replan is recommended exactly when the best candidate's macro-F1 is
    below 0.60; a weak lift over the baseline alone never asks for one. *)
Theorem replan_iff_modest_f1 (p : Profile) (evaluation : MetricsDict)
    (all_metrics : list MetricsDict) :
  replan_recommended (reflect p evaluation all_metrics) = true
  <-> (best_f1 evaluation < 0.60)%Q.
Proof.
  rewrite <- lt_spec. unfold best_f1, reflect.
  destruct (List.find _ _) as [d|]; [destruct (Py.lt (_ - _) _)|];
    destruct (Py.lt (get_default _ _) _); simpl; split; congruence.
Qed.

(** [reflect] raises at most two issues, gives a suggestion with each, and
    at most one suggestion more. *)
Theorem reflect_issue_counts (p : Profile) (evaluation : MetricsDict)
    (all_metrics : list MetricsDict) :
  let r := reflect p evaluation all_metrics in
  (length (issues r) <= 2)%nat
  /\ (length (issues r) <= length (suggestions r) <= length (issues r) + 1)%nat
  /\ (length (suggestions r) = length (issues r) + 1 <-> imbalanced p = true)%nat.
Proof.
  unfold imbalanced, reflect.
  destruct (List.find _ _) as [d|]; [destruct (Py.lt (_ - _) _)|];
    destruct (Py.lt (get_default _ _) _); destruct (ge _ _);
    simpl; repeat split; intros; try lia; try congruence.
Qed.

End SelectionProperties.

(** ** Training and evaluation *)

Section TrainingProperties.

Import Modelling.

#[local] Abbreviation scorer := (string -> estimator -> Scores).

Lemma sort_desc_nil_inv (l : list Result) : sort_desc l = [] -> l = [].
Proof.
  intros E. assert (P := sort_desc_perm l). rewrite E in P.
  symmetry in P. now apply Permutation_nil_r in P.
Qed.

Lemma train_models_Some (fit_and_score : scorer) (df : DataProfiler.DataFrame) (target : string)
    (candidates : list candidate) (out : Training) :
  train_models fit_and_score df target candidates = Some out ->
  target ∈ DataProfiler.column_names df
  /\ results out = sort_desc (train_one fit_and_score <$> candidates)
  /\ head (results out) = Some (best out)
  /\ all_metrics out = metrics <$> results out.
Proof.
  unfold train_models. case_bool_decide as Ht; [|discriminate].
  destruct (sort_desc _) as [|b rest] eqn:E; [discriminate|].
  simpl. intros [= <-]. simpl. now rewrite <- E.
Qed.

(** X4. [train_models] raises when the target is not a column
    ([ValueError]) and when there is no candidate ([IndexError] of
    [results[0]], if nothing was raised before it). *)
Theorem train_models_raises_when (fit_and_score : scorer) (df : DataProfiler.DataFrame) (target : string)
    (candidates : list candidate) :
  target ∉ DataProfiler.column_names df \/ candidates = [] ->
  train_models fit_and_score df target candidates = None.
Proof.
  unfold train_models. intros [H| ->].
  - now rewrite (bool_decide_eq_false_2 _ H).
  - now case_bool_decide.
Qed.

Lemma train_models_raises_when_witness :
  train_models (fun _ _ => mkScores 0 0 0 0 0)
    (DataProfiler.mkDataFrame 0 []) "y" [] = None.
Proof.
  apply (train_models_raises_when (fun _ _ => mkScores 0 0 0 0 0)
           (DataProfiler.mkDataFrame 0 []) "y" []).
  now right.
Defined.

(** X5. The best candidate reported by [evaluate_best] is the first of the
    ranked metrics, and no candidate has a greater balanced accuracy, nor
    the same balanced accuracy and a greater macro-F1. *)
Theorem evaluate_best_is_maximal (fit_and_score : scorer) (df : DataProfiler.DataFrame) (target : string)
    (candidates : list candidate) (out : Training) :
  train_models fit_and_score df target candidates = Some out ->
  let payload := Evaluation.evaluate_best out in
  let best := Evaluation.best_metrics payload in
  head (Evaluation.all_metrics payload) = Some best
  /\ forall m : Metrics,
       m ∈ Evaluation.all_metrics payload ->
       (balanced_accuracy m <= balanced_accuracy best)%Q
       /\ (balanced_accuracy m == balanced_accuracy best ->
           f1_macro m <= f1_macro best)%Q.
Proof.
  intros E. destruct (train_models_Some _ _ _ _ _ E) as (_ & Hres & Hhead & Hall).
  simpl. rewrite Hall. split.
  { destruct (results out); [discriminate Hhead|]. now injection Hhead as ->. }
  intros m Hm. apply list_elem_of_fmap in Hm as (r & -> & Hr).
  assert (Hs : StronglySorted ranks_before (results out))
    by (rewrite Hres; apply sort_desc_sorted).
  destruct (results out) as [|b rest]; [discriminate Hhead|].
  injection Hhead as <-. apply StronglySorted_inv in Hs as [_ Hb].
  assert (Hk : key_lt (sort_key b) (sort_key r) = false).
  { apply elem_of_cons in Hr as [->|Hr].
    - apply key_lt_false. simpl. right. split; [reflexivity|apply Qle_refl].
    - rewrite Forall_forall in Hb. now apply Hb. }
  apply key_lt_false in Hk. unfold sort_key in Hk. simpl in Hk. lra.
Qed.

Lemma evaluate_best_is_maximal_witness :
  exists out : Training,
    train_models sample_scores sample_frame "y" (select_models sample_profile 42)
      = Some out
    /\ forall m : Metrics,
         m ∈ Evaluation.all_metrics (Evaluation.evaluate_best out) ->
         (balanced_accuracy m
          <= balanced_accuracy (Evaluation.best_metrics (Evaluation.evaluate_best out)))%Q.
Proof.
  destruct (train_models sample_scores sample_frame "y"
              (select_models sample_profile 42)) as [out|] eqn:E;
    [|vm_compute in E; discriminate E].
  exists out. split; [reflexivity|]. intros m Hm.
  exact (proj1 (proj2 (evaluate_best_is_maximal _ _ _ _ _ E) m Hm)).
Defined.

End TrainingProperties.

Section PipelineProperties.

Import Modelling.

#[local] Abbreviation scorer := (string -> estimator -> Scores).
#[local] Existing Instance has_key_dec.

Lemma train_one_candidate (fit_and_score : scorer) (cs : list candidate) :
  (fun r => (name r, pipeline r)) <$> (train_one fit_and_score <$> cs) = cs.
Proof.
  induction cs as [|[n m] cs IH]; [reflexivity|].
  rewrite !fmap_cons, IH. reflexivity.
Qed.

(** X6. [train_models] reports one result per candidate: the (name, estimator)
    pairs of the results are the candidates up to order, every metrics
    dictionary carries the name of its result, and [all_metrics] is as long
    as the candidate list. *)
Theorem train_models_one_result_each (fit_and_score : scorer)
    (df : DataProfiler.DataFrame) (target : string)
    (candidates : list candidate) (out : Training) :
  train_models fit_and_score df target candidates = Some out ->
  (fun r => (name r, pipeline r)) <$> results out ≡ₚ candidates
  /\ Forall (fun r => model (metrics r) = name r) (results out)
  /\ length (all_metrics out) = length candidates.
Proof.
  intros E. destruct (train_models_Some _ _ _ _ _ E) as (_ & Hres & _ & Hall).
  assert (P : results out ≡ₚ train_one fit_and_score <$> candidates)
    by (rewrite Hres; apply sort_desc_perm).
  split; [|split].
  - now rewrite P, train_one_candidate.
  - rewrite P. apply Forall_fmap, Forall_forall. now intros [n m] _.
  - rewrite Hall, length_fmap, P. apply length_fmap.
Qed.

Lemma train_models_one_result_each_witness :
  exists out : Training,
    train_models sample_scores sample_frame "y" (select_models sample_profile 42)
      = Some out
    /\ length (all_metrics out) = 5%nat.
Proof.
  destruct (train_models sample_scores sample_frame "y"
              (select_models sample_profile 42)) as [out|] eqn:E;
    [|vm_compute in E; discriminate E].
  exists out. split; [reflexivity|].
  exact (proj2 (proj2 (train_models_one_result_each _ _ _ _ _ E))).
Defined.

Lemma filter_all (k : Q * Q) (l : list Result) :
  Forall (has_key k) l -> filter (has_key k) l = l.
Proof.
  induction 1 as [|x l Hx Hl IH]; [reflexivity|].
  now rewrite filter_cons_True, IH.
Qed.

(** X7. When all candidates score the same key, the ranking is the order of
    the candidate list, and the best candidate is the first one listed. *)
Theorem train_models_all_tied (fit_and_score : scorer)
    (df : DataProfiler.DataFrame) (target : string)
    (candidates : list candidate) (out : Training) (k : Q * Q) :
  train_models fit_and_score df target candidates = Some out ->
  Forall (has_key k) (train_one fit_and_score <$> candidates) ->
  results out = train_one fit_and_score <$> candidates
  /\ Some (best out) = head (train_one fit_and_score <$> candidates).
Proof.
  intros E Hk. destruct (train_models_Some _ _ _ _ _ E) as (_ & Hres & Hhead & _).
  assert (R : results out = train_one fit_and_score <$> candidates).
  { rewrite Hres.
    assert (Hk' : Forall (has_key k) (sort_desc (train_one fit_and_score <$> candidates)))
      by (now rewrite sort_desc_perm).
    rewrite <- (filter_all k _ Hk'), sort_desc_stable. apply filter_all, Hk. }
  split; [exact R|]. now rewrite <- Hhead, R.
Qed.

Definition flat_scores (name : string) (model : estimator) : Scores :=
  mkScores 0.5 0.5 0.4 0.4 0.5.

Lemma train_models_all_tied_witness :
  exists out : Training,
    train_models flat_scores sample_frame "y" (select_models sample_profile 42)
      = Some out
    /\ name (best out) = "DummyMostFrequent"%string.
Proof.
  destruct (train_models flat_scores sample_frame "y"
              (select_models sample_profile 42)) as [out|] eqn:E;
    [|vm_compute in E; discriminate E].
  exists out. split; [reflexivity|].
  assert (H := proj2 (train_models_all_tied flat_scores sample_frame "y"
                        (select_models sample_profile 42) out (0.5, 0.4)%Q E
                        ltac:(repeat constructor))).
  simpl in H. now injection H as ->.
Defined.

Lemma find_unique {A : Type} (P : A -> bool) (l : list A) (x : A) :
  x ∈ l -> P x = true -> (forall y, y ∈ l -> P y = true -> y = x) ->
  List.find P l = Some x.
Proof.
  induction l as [|y l IH]; intros Hin Hx Huniq; [now apply elem_of_nil in Hin|].
  simpl. destruct (P y) eqn:Hy.
  - f_equal. apply Huniq; [left|exact Hy].
  - apply elem_of_cons in Hin as [->|Hin]; [congruence|].
    apply IH; [exact Hin|exact Hx|]. intros z Hz. apply Huniq. now right.
Qed.

Definition dummy_candidate : candidate :=
  ("DummyMostFrequent"%string, DummyClassifier "most_frequent").

Lemma select_models_dummy (p : Profile) (seed : Z) :
  dummy_candidate ∈ select_models p seed
  /\ forall c : candidate,
       c ∈ select_models p seed -> contains "Dummy" c.1 = true -> c = dummy_candidate.
Proof.
  unfold select_models.
  destruct (ge _ _); destruct (_ <=? 50000); destruct (_ && _); cbn -[elem_of contains];
    (split; [left|]); intros c Hc Hd;
    rewrite ?elem_of_cons, ?elem_of_nil in Hc;
    repeat (destruct Hc as [-> | Hc]; [first [reflexivity | discriminate Hd]|]);
    contradiction.
Qed.

(** X8. In the orchestrator's pipeline the reflector always has its baseline:
    among the metrics of the candidates of [select_models], the entry that
    [reflect] picks as the dummy is the one of ["DummyMostFrequent"], with
    the scores that candidate obtained. *)
Theorem pipeline_baseline_found (fit_and_score : scorer)
    (df : DataProfiler.DataFrame) (target : string) (p : Profile) (seed : Z)
    (out : Training) :
  train_models fit_and_score df target (select_models p seed) = Some out ->
  List.find Reflector.is_dummy
    (Orchestrator.to_dict <$> Evaluation.all_metrics (Evaluation.evaluate_best out))
  = Some (Orchestrator.to_dict (metrics (train_one fit_and_score dummy_candidate))).
Proof.
  intros E. destruct (train_models_Some _ _ _ _ _ E) as (_ & Hres & _ & Hall).
  unfold Evaluation.evaluate_best. cbn [Evaluation.all_metrics]. rewrite Hall.
  assert (P : results out ≡ₚ train_one fit_and_score <$> select_models p seed)
    by (rewrite Hres; apply sort_desc_perm).
  destruct (select_models_dummy p seed) as [Hin Huniq].
  apply find_unique.
  - apply (list_elem_of_fmap_2 Orchestrator.to_dict), (list_elem_of_fmap_2 metrics).
    rewrite P. apply (list_elem_of_fmap_2 (train_one fit_and_score)), Hin.
  - reflexivity.
  - intros y Hy Hd.
    apply list_elem_of_fmap in Hy as (m & -> & Hm).
    apply list_elem_of_fmap in Hm as (r & -> & Hr).
    rewrite P in Hr. apply list_elem_of_fmap in Hr as (c & -> & Hc).
    rewrite (Huniq c Hc); [reflexivity|].
    destruct c as [n e]. exact Hd.
Qed.

Lemma pipeline_baseline_found_witness :
  exists out : Training,
    train_models sample_scores sample_frame "y" (select_models sample_profile 42)
      = Some out
    /\ Reflector.model <$>
         List.find Reflector.is_dummy
           (Orchestrator.to_dict <$> Evaluation.all_metrics (Evaluation.evaluate_best out))
       = Some (Some "DummyMostFrequent"%string).
Proof.
  destruct (train_models sample_scores sample_frame "y"
              (select_models sample_profile 42)) as [out|] eqn:E;
    [|vm_compute in E; discriminate E].
  exists out. split; [reflexivity|].
  now rewrite (pipeline_baseline_found _ _ _ _ _ _ E).
Defined.

End PipelineProperties.

(** ** More on the memory store *)

Section MemoryStoreProperties.

Import Memory.

(** The records of a store's data: the ["datasets"] object, or nothing. *)
Definition datasets_of (m : gmap string json) : gmap string json :=
  match m !! "datasets"%string with
  | Some (JObj datasets) => datasets
  | _ => ∅
  end.

Lemma datasets_of_insert (m d : gmap string json) :
  datasets_of (<["datasets"%string := JObj d]> m) = d.
Proof. unfold datasets_of. now rewrite lookup_insert_eq. Qed.

(** An upsert on a well-shaped store, written out. *)
Lemma upsert_eq (self : JSONMemory) (m : gmap string json) (fp : string)
    (r : json) (fs : files) :
  data self = JObj m ->
  (m !! "datasets"%string = None
   \/ exists datasets, m !! "datasets"%string = Some (JObj datasets)) ->
  upsert_dataset_record self fp r fs =
    let data' := JObj (<["datasets"%string := JObj (<[fp := r]> (datasets_of m))]> m) in
    Some (mkMemory (path self) data', <[path self := Doc data']> fs).
Proof.
  intros Hm Hd. unfold upsert_dataset_record, datasets_of, save. rewrite Hm.
  destruct Hd as [Hd | [ds Hd]]; rewrite Hd; cbn [path data].
  - rewrite lookup_insert_eq. cbn [default from_option id].
    now rewrite insert_insert_eq.
  - now rewrite Hd.
Qed.

Lemma upsert_Some_well_shaped (self self' : JSONMemory) (fp : string) (r : json)
    (fs fs' : files) :
  upsert_dataset_record self fp r fs = Some (self', fs') -> well_shaped self.
Proof.
  unfold upsert_dataset_record, well_shaped.
  destruct (data self) as [| | | | |m] eqn:Hm; try discriminate.
  intros H. exists m. split; [reflexivity|].
  destruct (m !! "datasets"%string) as [v|] eqn:Hd; [|now left].
  right. rewrite Hd in H. cbn [default from_option id] in H.
  destruct v; try discriminate H. eauto.
Qed.

(** X9. What an upsert wrote survives the process: a store built afterwards on
    the same path is the store the upsert left, and it returns the
    record. *)
Theorem upsert_survives_reload (self self' : JSONMemory) (fp : string)
    (r : json) (fs fs' : files) (now : string) :
  upsert_dataset_record self fp r fs = Some (self', fs') ->
  init now (path self) fs' = (self', fs')
  /\ get_dataset_record (init now (path self) fs').1 fp = Some r.
Proof.
  intros E. assert (Hws := upsert_Some_well_shaped _ _ _ _ _ _ E).
  destruct (upsert_spec self fp r fs Hws)
    as (s1 & f1 & E1 & _ & Hpath & Hfs & Hget & _).
  rewrite E in E1. injection E1 as <- <-.
  assert (Hinit : init now (path self) fs' = (self', fs')).
  { unfold init, _load. cbn [path]. rewrite Hfs, lookup_insert_eq.
    destruct self' as [p' d']. cbn [path data] in *. now rewrite Hpath. }
  split; [exact Hinit|]. now rewrite Hinit.
Qed.

Lemma upsert_survives_reload_witness :
  exists (self' : JSONMemory) (fs' : files),
    upsert_dataset_record (mkMemory "agent_memory.json" initial_data)
      "fp_42" sample_record ∅ = Some (self', fs')
    /\ get_dataset_record (init "t1" "agent_memory.json" fs').1 "fp_42"
       = Some sample_record.
Proof.
  destruct (upsert_spec (mkMemory "agent_memory.json" initial_data) "fp_42"
              sample_record ∅ (initial_well_shaped _)) as (self' & fs' & E & _).
  exists self', fs'. split; [exact E|].
  exact (proj2 (upsert_survives_reload _ _ _ _ _ _ "t1" E)).
Defined.

(** X10. The last write wins: writing [r1] and then [r2] under one fingerprint
    leaves the store and the files exactly as writing [r2] alone does. *)
Theorem upsert_overwrites (self : JSONMemory) (fp : string) (r1 r2 : json)
    (fs : files) :
  well_shaped self ->
  exists (s1 s2 : JSONMemory) (f1 f2 : files),
    upsert_dataset_record self fp r1 fs = Some (s1, f1)
    /\ upsert_dataset_record s1 fp r2 f1 = Some (s2, f2)
    /\ upsert_dataset_record self fp r2 fs = Some (s2, f2)
    /\ get_dataset_record s2 fp = Some r2.
Proof.
  intros (m & Hm & Hd).
  set (d0 := datasets_of m).
  set (m1 := <["datasets"%string := JObj (<[fp := r1]> d0)]> m).
  set (m2 := <["datasets"%string := JObj (<[fp := r2]> d0)]> m).
  exists (mkMemory (path self) (JObj m1)), (mkMemory (path self) (JObj m2)),
    (<[path self := Doc (JObj m1)]> fs), (<[path self := Doc (JObj m2)]> fs).
  split; [exact (upsert_eq self m fp r1 fs Hm Hd)|].
  split.
  { rewrite (upsert_eq (mkMemory (path self) (JObj m1)) m1 fp r2 _ eq_refl)
      by (right; eexists; apply lookup_insert_eq).
    cbn zeta. cbn [path]. subst m1 m2.
    now rewrite datasets_of_insert, !insert_insert_eq. }
  split; [exact (upsert_eq self m fp r2 fs Hm Hd)|].
  unfold get_dataset_record. cbn [data]. subst m2. rewrite lookup_insert_eq.
  cbn [default from_option id]. now rewrite lookup_insert_eq.
Qed.

Lemma upsert_overwrites_witness :
  exists (s1 s2 : JSONMemory) (f1 f2 : files),
    upsert_dataset_record (mkMemory "agent_memory.json" initial_data)
      "fp_42" JNull ∅ = Some (s1, f1)
    /\ upsert_dataset_record s1 "fp_42" sample_record f1 = Some (s2, f2)
    /\ upsert_dataset_record (mkMemory "agent_memory.json" initial_data)
         "fp_42" sample_record ∅ = Some (s2, f2)
    /\ get_dataset_record s2 "fp_42" = Some sample_record.
Proof.
  apply (upsert_overwrites (mkMemory "agent_memory.json" initial_data) "fp_42"
           JNull sample_record ∅).
  apply initial_well_shaped.
Defined.

(** X11. Upserts under different fingerprints commute: either order leaves
    stores with equal data, each saved to the memory file. *)
Theorem upsert_commutes (self : JSONMemory) (fp1 fp2 : string) (r1 r2 : json)
    (fs : files) :
  well_shaped self -> fp1 <> fp2 ->
  exists (s1 s2 sa sb : JSONMemory) (f1 f2 fa fb : files),
    upsert_dataset_record self fp1 r1 fs = Some (s1, f1)
    /\ upsert_dataset_record s1 fp2 r2 f1 = Some (sa, fa)
    /\ upsert_dataset_record self fp2 r2 fs = Some (s2, f2)
    /\ upsert_dataset_record s2 fp1 r1 f2 = Some (sb, fb)
    /\ data sa = data sb
    /\ fa !! path self = Some (Doc (data sa))
    /\ fb !! path self = Some (Doc (data sb)).
Proof.
  intros (m & Hm & Hd) Hne.
  set (d0 := datasets_of m).
  set (m1 := <["datasets"%string := JObj (<[fp1 := r1]> d0)]> m).
  set (m2 := <["datasets"%string := JObj (<[fp2 := r2]> d0)]> m).
  set (m3 := <["datasets"%string := JObj (<[fp2 := r2]> (<[fp1 := r1]> d0))]> m).
  exists (mkMemory (path self) (JObj m1)), (mkMemory (path self) (JObj m2)),
    (mkMemory (path self) (JObj m3)), (mkMemory (path self) (JObj m3)),
    (<[path self := Doc (JObj m1)]> fs), (<[path self := Doc (JObj m2)]> fs),
    (<[path self := Doc (JObj m3)]> fs), (<[path self := Doc (JObj m3)]> fs).
  split; [exact (upsert_eq self m fp1 r1 fs Hm Hd)|].
  split.
  { rewrite (upsert_eq (mkMemory (path self) (JObj m1)) m1 fp2 r2 _ eq_refl)
      by (right; eexists; apply lookup_insert_eq).
    cbn zeta. cbn [path]. subst m1 m3.
    now rewrite datasets_of_insert, !insert_insert_eq. }
  split; [exact (upsert_eq self m fp2 r2 fs Hm Hd)|].
  split.
  { rewrite (upsert_eq (mkMemory (path self) (JObj m2)) m2 fp1 r1 _ eq_refl)
      by (right; eexists; apply lookup_insert_eq).
    cbn zeta. cbn [path]. subst m2 m3.
    rewrite datasets_of_insert, !insert_insert_eq.
    now rewrite (insert_insert_ne _ fp1 fp2) by exact Hne. }
  split; [reflexivity|]. cbn [data]. split; apply lookup_insert_eq.
Qed.

Lemma upsert_commutes_witness :
  exists (s1 s2 sa sb : JSONMemory) (f1 f2 fa fb : files),
    upsert_dataset_record (mkMemory "agent_memory.json" initial_data)
      "fp_1" JNull ∅ = Some (s1, f1)
    /\ upsert_dataset_record s1 "fp_2" sample_record f1 = Some (sa, fa)
    /\ upsert_dataset_record (mkMemory "agent_memory.json" initial_data)
         "fp_2" sample_record ∅ = Some (s2, f2)
    /\ upsert_dataset_record s2 "fp_1" JNull f2 = Some (sb, fb)
    /\ data sa = data sb
    /\ fa !! "agent_memory.json" = Some (Doc (data sa))
    /\ fb !! "agent_memory.json" = Some (Doc (data sb)).
Proof.
  apply (upsert_commutes (mkMemory "agent_memory.json" initial_data) "fp_1" "fp_2"
           JNull sample_record ∅).
  - apply initial_well_shaped.
  - discriminate.
Defined.

End MemoryStoreProperties.

Section MemoryFileProperties.

Import Memory.

(** X12. Building a store never writes the memory file: the store keeps the
    path it was given, the file at that path is what it was, and the only
    file that can change is the backup. *)
Theorem init_keeps_memory_file (now p : string) (fs : files) :
  path (init now p fs).1 = p
  /\ (init now p fs).2 !! p = fs !! p
  /\ forall f : string, f <> (p +:+ ".bak")%string -> (init now p fs).2 !! f = fs !! f.
Proof.
  unfold init, _load. cbn [path].
  destruct (fs !! p) as [[raw|j]|] eqn:E; cbn [fst snd path];
    repeat split; auto.
  - rewrite lookup_insert_ne; [exact E|]. now apply append_ne_self.
  - intros f Hf. now apply lookup_insert_ne.
Qed.

(** X13. A memory file that holds a JSON document which is not an object (a
    list, a number, a string, [null]) is taken as the store's data without
    a reset or a backup, and then every read, upsert and note raises. *)
Theorem non_object_document_raises (now p : string) (fs : files) (j : json) :
  fs !! p = Some (Doc j) -> (forall m, j <> JObj m) ->
  init now p fs = (mkMemory p j, fs)
  /\ forall (fp msg : string) (r : json) (fs' : files),
       get_dataset_record (init now p fs).1 fp = None
       /\ upsert_dataset_record (init now p fs).1 fp r fs' = None
       /\ add_note now (init now p fs).1 msg fs' = None.
Proof.
  intros E Hj.
  assert (Hinit : init now p fs = (mkMemory p j, fs)).
  { unfold init, _load. cbn [path]. now rewrite E. }
  split; [exact Hinit|]. intros fp msg r fs'. rewrite Hinit. cbn [fst].
  unfold get_dataset_record, upsert_dataset_record, add_note. cbn [data].
  destruct j as [| | | | |m]; try (repeat split; reflexivity).
  now destruct (Hj m).
Qed.

Lemma non_object_document_raises_witness :
  init "t0" "agent_memory.json" (<["agent_memory.json" := Doc (JArr [])]> ∅)
  = (mkMemory "agent_memory.json" (JArr []),
     <["agent_memory.json" := Doc (JArr [])]> ∅).
Proof.
  apply (non_object_document_raises "t0" "agent_memory.json"
           (<["agent_memory.json" := Doc (JArr [])]> ∅) (JArr [])).
  - reflexivity.
  - discriminate.
Defined.

(** The notes of a store's data: the ["notes"] list, or nothing. *)
Definition notes_of (self : JSONMemory) : list json :=
  match data self with
  | JObj m => match m !! "notes"%string with
              | Some (JArr ns) => ns
              | _ => []
              end
  | _ => []
  end.

(** X14. On a store whose data is an object with no ["notes"] entry or a list
    under it, [add_note] appends one note, keeps every dataset record, and
    writes the document to the memory file. *)
Theorem add_note_keeps_records (now : string) (self : JSONMemory)
    (m : gmap string json) (msg : string) (fs : files) :
  data self = JObj m ->
  (m !! "notes"%string = None \/ exists ns, m !! "notes"%string = Some (JArr ns)) ->
  exists (self' : JSONMemory) (fs' : files),
    add_note now self msg fs = Some (self', fs')
    /\ notes_of self' = notes_of self ++ [note now msg]
    /\ (forall fp : string, get_dataset_record self' fp = get_dataset_record self fp)
    /\ fs' !! path self = Some (Doc (data self'))
    /\ path self' = path self.
Proof.
  intros Hm Hn. unfold add_note, notes_of, get_dataset_record. rewrite Hm.
  destruct Hn as [Hn | [ns Hn]]; rewrite Hn.
  - rewrite lookup_insert_eq. cbn [default from_option id].
    do 2 eexists. split; [reflexivity|]. cbn [data path].
    rewrite lookup_insert_eq. split; [reflexivity|].
    split; [|split; [apply lookup_insert_eq|reflexivity]].
    intros fp. now rewrite !lookup_insert_ne by discriminate.
  - rewrite Hn. cbn [default from_option id].
    do 2 eexists. split; [reflexivity|]. cbn [data path].
    rewrite lookup_insert_eq. split; [reflexivity|].
    split; [|split; [apply lookup_insert_eq|reflexivity]].
    intros fp. now rewrite !lookup_insert_ne by discriminate.
Qed.

Lemma add_note_keeps_records_witness :
  exists (self' : JSONMemory) (fs' : files),
    add_note "t1" (mkMemory "agent_memory.json" initial_data) "hello" ∅
      = Some (self', fs')
    /\ notes_of self' = [note "t1" "hello"].
Proof.
  destruct (add_note_keeps_records "t1" (mkMemory "agent_memory.json" initial_data)
              (<["datasets" := JObj ∅]> (<["notes" := JArr []]> ∅)) "hello" ∅
              eq_refl (or_intror (ex_intro _ [] eq_refl)))
    as (self' & fs' & E & Hn & _).
  exists self', fs'. split; [exact E|exact Hn].
Defined.

(** X15. A store whose data is a document of the documented shape stays one:
    every upsert and every note succeeds, and leaves such a document both
    in the store and in the memory file. *)
Theorem valid_document_preserved (now : string) (self : JSONMemory) (fs : files)
    (fp msg : string) (r : json) :
  valid_document (data self) ->
  (exists (self' : JSONMemory) (fs' : files),
     upsert_dataset_record self fp r fs = Some (self', fs')
     /\ valid_document (data self')
     /\ fs' !! path self = Some (Doc (data self')))
  /\ (exists (self' : JSONMemory) (fs' : files),
        add_note now self msg fs = Some (self', fs')
        /\ valid_document (data self')
        /\ fs' !! path self = Some (Doc (data self'))).
Proof.
  intros (ds & ns & Hd & Hns). split.
  - unfold upsert_dataset_record, save. rewrite Hd. rewrite !lookup_insert_eq.
    cbn [default from_option id]. do 2 eexists. split; [reflexivity|].
    cbn [path data]. split; [|apply lookup_insert_eq].
    exists (<[fp := r]> ds), ns. split; [|exact Hns].
    now rewrite insert_insert_eq.
  - unfold add_note, save. rewrite Hd.
    rewrite (lookup_insert_ne _ "datasets"%string "notes"%string) by discriminate.
    rewrite !lookup_insert_eq.
    rewrite (lookup_insert_ne _ "datasets"%string "notes"%string) by discriminate.
    rewrite lookup_insert_eq. cbn [default from_option id].
    do 2 eexists. split; [reflexivity|].
    cbn [path data]. split; [|apply lookup_insert_eq].
    exists ds, (ns ++ [note now msg]). split.
    + rewrite (insert_insert_ne _ "notes"%string "datasets"%string) by discriminate.
      now rewrite insert_insert_eq.
    + apply Forall_app. split; [exact Hns|].
      constructor; [now exists now, msg|constructor].
Qed.

Lemma valid_document_preserved_witness :
  exists (self' : JSONMemory) (fs' : files),
    upsert_dataset_record (mkMemory "agent_memory.json" initial_data)
      "fp_42" sample_record ∅ = Some (self', fs')
    /\ valid_document (data self')
    /\ fs' !! "agent_memory.json"%string = Some (Doc (data self')).
Proof.
  apply (valid_document_preserved "t1" (mkMemory "agent_memory.json" initial_data)
           ∅ "fp_42" "hello" sample_record).
  exists ∅, []. split; [reflexivity|constructor].
Defined.

End MemoryFileProperties.

(** ** More on the profiler *)

Section ProfileProperties.

Import DataProfiler.

Lemma getitem_None (cols : list (string * Series)) (t : string) :
  getitem cols t = None <-> t ∉ cols.*1.
Proof.
  induction cols as [|[c s] cols IH]; simpl.
  - split; [intros _; apply not_elem_of_nil|reflexivity].
  - rewrite not_elem_of_cons. destruct (String.eqb_spec c t) as [->|Hne].
    + split; [discriminate|]. intros [H _]. now destruct H.
    + rewrite IH. split; [intros H; split; [congruence|exact H]|tauto].
Qed.

(** X16. [profile_dataset] raises exactly when the target is not a column. *)
Theorem profile_dataset_raises_iff (df : DataFrame) (target : string) :
  profile_dataset df target = None <-> target ∉ column_names df.
Proof.
  unfold column_names. rewrite <- getitem_None. unfold profile_dataset.
  destruct (getitem (df_columns df) target) as [y|]; simpl; [|tauto].
  destruct (is_classification_target y); split; discriminate.
Qed.

Lemma select_models_nonempty (p : Profile) (seed : Z) :
  Modelling.select_models p seed <> [].
Proof.
  unfold Modelling.select_models.
  destruct (ge _ _); destruct (_ <=? 50000); destruct (_ && _); discriminate.
Qed.

(** X17. Once the data is profiled, neither guard of [train_models] fires on
    the candidates selected for the profile: the target is a column, and
    there is always a candidate. *)
Theorem profiled_data_passes_guards (df : DataFrame) (target : string) (p : Profile)
    (seed : Z) :
  profile_dataset df target = Some p ->
  target ∈ column_names df /\ Modelling.select_models p seed <> [].
Proof.
  intros Hp. split; [|apply select_models_nonempty].
  destruct (decide (target ∈ column_names df)) as [H|H]; [exact H|].
  apply getitem_None in H. unfold profile_dataset in Hp.
  now rewrite H in Hp.
Qed.

Lemma profiled_data_passes_guards_witness :
  "y"%string ∈ column_names sample_frame
  /\ Modelling.select_models
       (default sample_profile (profile_dataset sample_frame "y")) 42 <> [].
Proof.
  destruct (profile_dataset sample_frame "y") as [p|] eqn:E;
    [|vm_compute in E; discriminate E].
  exact (profiled_data_passes_guards sample_frame "y" p 42 E).
Defined.

Lemma count_cell_length (c : cell) (vc : list (cell * Z)) :
  (length (count_cell c vc) <= S (length vc))%nat.
Proof.
  induction vc as [|[c' n] vc IH]; simpl; [lia|].
  destruct (cell_eqb c' c); simpl; lia.
Qed.

Lemma value_counts_length (s : Series) :
  (length (value_counts s) <= length (s_values s))%nat.
Proof.
  unfold value_counts.
  assert (H : forall cs acc,
            (length (foldl (fun vc c => count_cell c vc) acc cs)
             <= length acc + length cs)%nat).
  { induction cs as [|c cs IH]; intros acc; simpl; [lia|].
    specialize (IH (count_cell c acc)). pose proof (count_cell_length c acc). lia. }
  apply (H (s_values s) []).
Qed.

(** X18. A target column with at most 50 values is always a classification
    target, whatever its type. *)
Theorem few_rows_is_classification (y : Series) :
  (length (s_values y) <= 50)%nat -> is_classification_target y = true.
Proof.
  intros H. unfold is_classification_target.
  destruct (s_dtype y); try reflexivity; apply Z.leb_le; unfold nunique;
    pose proof (value_counts_length y);
    (eapply Z.le_trans; [apply Nat2Z.inj_le, length_filter|]); lia.
Qed.

Lemma few_rows_is_classification_witness :
  is_classification_target
    (mkSeries DFloat64 [Some (SFloat 0.5); Some (SFloat 1.5); None]) = true.
Proof. apply few_rows_is_classification. simpl. lia. Defined.

Lemma count_cell_sum (c : cell) (vc : list (cell * Z)) :
  foldr Z.add 0 (count_cell c vc).*2 = foldr Z.add 0 vc.*2 + 1.
Proof.
  induction vc as [|[c' n] vc IH]; [reflexivity|].
  cbn [count_cell]. destruct (cell_eqb c' c); rewrite !fmap_cons; cbn [foldr snd].
  - lia.
  - rewrite IH. lia.
Qed.

(** [value_counts] counts every value once: the counts add up to the
    number of values, the missing ones included, and no count is zero. *)
Theorem value_counts_total (s : Series) :
  foldr Z.add 0 (value_counts s).*2 = Z.of_nat (length (s_values s))
  /\ Forall (fun x => 1 <= x.2) (value_counts s).
Proof.
  split; [|apply value_counts_positive].
  unfold value_counts.
  assert (H : forall cs acc,
            foldr Z.add 0 (foldl (fun vc c => count_cell c vc) acc cs).*2
            = foldr Z.add 0 acc.*2 + Z.of_nat (length cs)).
  { induction cs as [|c cs IH]; intros acc; cbn [foldl length]; [lia|].
    rewrite IH, count_cell_sum. lia. }
  apply (H (s_values s) []).
Qed.

End ProfileProperties.

Section RatioProperties.

Import DataProfiler.

Lemma vc_min_le_max (vc : list (cell * Z)) : vc <> [] -> vc_min vc <= vc_max vc.
Proof.
  unfold vc_min, vc_max. destruct vc as [|[c n] vc]; [congruence|]. intros _.
  rewrite fmap_cons. cbn [snd foldr].
  assert (H : forall ns, foldr Z.min n ns <= n).
  { induction ns as [|x ns IH]; simpl; lia. }
  specialize (H vc.*2). lia.
Qed.

Lemma class_ratio_ge_1 (y : Series) : (1 <= class_ratio (value_counts y))%Q.
Proof.
  unfold class_ratio.
  destruct (2 <=? Z.of_nat (length (value_counts y))) eqn:Hn; [|apply Qle_refl].
  assert (Hne : value_counts y <> []) by (intros E; rewrite E in Hn; discriminate Hn).
  pose proof (vc_min_positive _ (value_counts_positive y) Hne) as Hpos.
  pose proof (vc_min_le_max _ Hne) as Hle.
  rewrite Z.max_l by exact Hpos.
  assert (H1 : (1 <= float (vc_min (value_counts y)))%Q).
  { apply (binary64_ge 1); [lia|reflexivity|]. rewrite <- Zle_Qle. exact Hpos. }
  assert (H2 : (float (vc_min (value_counts y)) <= float (vc_max (value_counts y)))%Q).
  { apply binary64_mono; [|now rewrite <- Zle_Qle].
    change (inject_Z 0 < inject_Z (vc_min (value_counts y)))%Q.
    rewrite <- Zlt_Qlt. lia. }
  apply (binary64_ge 1); [lia|reflexivity|].
  apply Qle_shift_div_l; [|rewrite Qmult_1_l; exact H2].
  apply Qlt_le_trans with 1%Q; [reflexivity|exact H1].
Qed.

(** X19. The imbalance ratio of a profile is never below 1.0: neither the
    stored number, when there is one, nor what a reader takes from
    [imbalance_ratio or 1.0]. *)
Theorem profile_ratio_at_least_one (df : DataFrame) (target : string) (p : Profile) :
  profile_dataset df target = Some p ->
  (1 <= get_or (imbalance_ratio p) 1)%Q
  /\ forall q : Q, imbalance_ratio p = Val q -> (1 <= q)%Q.
Proof.
  unfold profile_dataset.
  destruct (getitem (df_columns df) target) as [y|]; [|discriminate]. simpl.
  destruct (is_classification_target y); intros [= <-]; simpl.
  - pose proof (round3_lower 1 _ ltac:(lia) eq_refl (class_ratio_ge_1 y)) as H.
    split; [|now intros q [= <-]].
    destruct (truthy _); [exact H|apply Qle_refl].
  - split; [apply Qle_refl|discriminate].
Qed.

Lemma profile_ratio_at_least_one_witness :
  (1 <= get_or
          (imbalance_ratio (default sample_profile (profile_dataset sample_frame "y")))
          1)%Q.
Proof.
  destruct (profile_dataset sample_frame "y") as [p|] eqn:E;
    [|vm_compute in E; discriminate E].
  exact (proj1 (profile_ratio_at_least_one sample_frame "y" p E)).
Defined.

(** X20. A profile that carries the imbalance note is planned with the
    imbalance task: the note is written for an unrounded ratio of at least
    3.0, and rounding does not take the stored ratio below 3.0. *)
Theorem imbalance_note_gets_task (df : DataFrame) (target : string) (p : Profile)
    (hint : json) :
  profile_dataset df target = Some p ->
  imbalance_note ∈ get_default (notes p) [] ->
  Planner.create_plan p hint =
    Some [ "profile_dataset"; "build_preprocessor"; "select_models";
           "consider_imbalance_strategy"; "train_models"; "evaluate"; "reflect";
           "write_report" ]%string.
Proof.
  unfold profile_dataset.
  destruct (getitem (df_columns df) target) as [y|]; [|discriminate]. simpl.
  destruct (is_classification_target y).
  - destruct (ge (class_ratio (value_counts y)) 3) eqn:Hge.
    + intros [= <-] _.
      apply (create_plan_imbalanced_eq _ hint (round3 (class_ratio (value_counts y))));
        [reflexivity|].
      apply (round3_lower 3); [lia|reflexivity|]. apply ge_spec, Hge.
    + intros [= <-]. simpl.
      destruct (_ <? 1000); destruct (100 <? _); simpl; intros H; exfalso;
        revert H; apply (bool_decide_unpack _); vm_compute; exact I.
  - intros [= <-]. simpl.
    destruct (_ <? 1000); destruct (100 <? _); simpl; intros H; exfalso;
      revert H; apply (bool_decide_unpack _); vm_compute; exact I.
Qed.

Lemma imbalance_note_gets_task_witness :
  Planner.create_plan
    (default sample_profile (profile_dataset sample_frame "y")) JNull
  = Some [ "profile_dataset"; "build_preprocessor"; "select_models";
           "consider_imbalance_strategy"; "train_models"; "evaluate"; "reflect";
           "write_report" ]%string.
Proof.
  destruct (profile_dataset sample_frame "y") as [p|] eqn:E;
    [|vm_compute in E; discriminate E].
  apply (imbalance_note_gets_task sample_frame "y" p JNull E).
  vm_compute in E. injection E as <-.
  apply (bool_decide_unpack _). vm_compute. exact I.
Defined.

(** The converse fails: 11999 rows against 4000 give a ratio of 2.99975,
    stored as 3.0; the plan has the imbalance task, the profile has no
    imbalance note. *)
Example task_without_note :
  let df := mkDataFrame (Z.to_nat 15999)
              [("y"%string,
                mkSeries DInt64 (replicate (Z.to_nat 11999) (Some (SInt 0))
                                 ++ replicate (Z.to_nat 4000) (Some (SInt 1))))] in
  exists p : Profile,
    profile_dataset df "y" = Some p
    /\ imbalance_ratio p = Val 3%Q
    /\ notes p = Some []
    /\ imbalanced p = true.
Proof. eexists. split; [vm_compute; reflexivity|]. repeat split. Qed.

End RatioProperties.

(** ** Target inference *)

Section InferenceProperties.

Import DataProfiler.

Lemma lower_map_acc (cs : list string) :
  forall (acc : gmap string string) (k c : string),
    foldl (fun m c => <[lower c := c]> m) acc cs !! k = Some c ->
    acc !! k = Some c \/ (c ∈ cs /\ lower c = k).
Proof.
  induction cs as [|x cs IH]; intros acc k c H; simpl in H; [now left|].
  apply IH in H as [H | [H1 H2]].
  - apply lookup_insert_Some in H as [[<- <-] | [_ H]].
    + right. split; [left|reflexivity].
    + now left.
  - right. split; [now right|exact H2].
Qed.

(** An entry of the lowered-name table is a column, under its lowered
    name. *)
Lemma lower_map_lookup (cols : list string) (k c : string) :
  lower_map cols !! k = Some c -> c ∈ cols /\ lower c = k.
Proof.
  intros H. apply lower_map_acc in H as [H|H]; [|exact H].
  rewrite lookup_empty in H. discriminate H.
Qed.

Lemma lower_map_acc_Some (cs : list string) :
  forall (acc : gmap string string) (k : string),
    is_Some (acc !! k) \/ (exists c, c ∈ cs /\ lower c = k) ->
    is_Some (foldl (fun m c => <[lower c := c]> m) acc cs !! k).
Proof.
  induction cs as [|x cs IH]; intros acc k H; simpl.
  - destruct H as [H | (c & Hc & _)]; [exact H|]. now apply elem_of_nil in Hc.
  - apply IH. destruct H as [H | (c & Hc & Hk)].
    + left. rewrite lookup_insert_is_Some. destruct (decide (lower x = k)); auto.
    + apply elem_of_cons in Hc as [-> | Hc].
      * left. rewrite <- Hk, lookup_insert_eq. eauto.
      * right. eauto.
Qed.

Lemma lower_map_None (cols : list string) (k : string) :
  lower_map cols !! k = None <-> forall c, c ∈ cols -> lower c <> k.
Proof.
  split.
  - intros H c Hc Hk.
    assert (S : is_Some (lower_map cols !! k))
      by (apply lower_map_acc_Some; right; eauto).
    rewrite H in S. now destruct S.
  - intros H. destruct (lower_map cols !! k) as [c|] eqn:E; [|reflexivity].
    apply lower_map_lookup in E as [Hc Hk]. now destruct (H c Hc).
Qed.

Lemma first_known_None (ks : list string) (m : gmap string string) :
  first_known ks m = None <-> forall k, k ∈ ks -> m !! k = None.
Proof.
  induction ks as [|k ks IH]; simpl.
  - split; [intros _ k Hk; now apply elem_of_nil in Hk|reflexivity].
  - destruct (m !! k) as [c|] eqn:E.
    + split; [discriminate|]. intros H. rewrite (H k) in E; [discriminate E|left].
    + rewrite IH. split.
      * intros H k' [-> | Hk']%elem_of_cons; auto.
      * intros H k' Hk'. apply H. now right.
Qed.

Lemma first_known_app (pre post : list string) (k : string)
    (m : gmap string string) (c : string) :
  (forall k', k' ∈ pre -> m !! k' = None) -> m !! k = Some c ->
  first_known (pre ++ k :: post) m = Some c.
Proof.
  induction pre as [|x pre IH]; intros Hpre Hk; simpl.
  - now rewrite Hk.
  - rewrite (Hpre x) by left. apply IH; [|exact Hk].
    intros k' Hk'. apply Hpre. now right.
Qed.

Lemma first_known_Some (ks : list string) (m : gmap string string) (c : string) :
  first_known ks m = Some c -> exists k, k ∈ ks /\ m !! k = Some c.
Proof.
  induction ks as [|k ks IH]; simpl; [discriminate|].
  destruct (m !! k) as [c'|] eqn:E.
  - intros [= ->]. exists k. split; [left|exact E].
  - intros H. destruct (IH H) as (k' & Hk' & Hm). exists k'. split; [now right|exact Hm].
Qed.

(** X21. A target that [infer_target_column] returns is a column of the frame,
    so profiling with it does not raise. *)
Theorem inferred_target_is_column (df : DataFrame) (c : string) :
  infer_target_column df = Some (Some c) ->
  c ∈ column_names df /\ exists p : Profile, profile_dataset df c = Some p.
Proof.
  intros H.
  assert (Hc : c ∈ column_names df).
  { unfold infer_target_column in H.
    destruct (first_known _ _) as [c'|] eqn:E.
    - injection H as ->. apply first_known_Some in E as (k & _ & E).
      now apply lower_map_lookup in E as [E _].
    - destruct (last (column_names df)) as [l|] eqn:El; [|discriminate H].
      simpl in H. destruct (getitem _ _); [|discriminate H]. simpl in H.
      destruct (_ && _); [|discriminate H]. injection H as <-.
      apply last_Some in El as [l' ->]. apply elem_of_app. right. left. }
  split; [exact Hc|].
  destruct (profile_dataset df c) as [p|] eqn:E; [now exists p|].
  unfold profile_dataset in E.
  destruct (getitem (df_columns df) c) as [y|] eqn:Ey.
  - simpl in E. destruct (is_classification_target y); discriminate E.
  - apply getitem_None in Ey. contradiction.
Qed.

Lemma inferred_target_is_column_witness :
  "y"%string ∈ column_names sample_frame
  /\ exists p : Profile, profile_dataset sample_frame "y" = Some p.
Proof. apply inferred_target_is_column. reflexivity. Defined.

(** X22. The well-known names have priority, in the order target, label, class,
    y, outcome, and without regard to case: when a column lowers to one of
    them and no column lowers to a name before it, the inferred target is a
    column that lowers to that name. *)
Theorem inferred_target_priority (df : DataFrame) (pre post : list string)
    (k col : string) :
  target_names = pre ++ k :: post ->
  col ∈ column_names df -> lower col = k ->
  (forall k' c, k' ∈ pre -> c ∈ column_names df -> lower c <> k') ->
  exists c : string,
    infer_target_column df = Some (Some c)
    /\ c ∈ column_names df /\ lower c = k.
Proof.
  intros Hnames Hcol Hk Hpre.
  assert (S : is_Some (lower_map (column_names df) !! k))
    by (apply lower_map_acc_Some; right; eauto).
  destruct S as [c Hc]. exists c.
  split; [|now apply lower_map_lookup].
  unfold infer_target_column. rewrite Hnames.
  rewrite (first_known_app pre post k _ c); [reflexivity| |exact Hc].
  intros k' Hk'. apply lower_map_None. intros c' Hc'. now apply Hpre.
Qed.

Definition labelled_frame : DataFrame :=
  mkDataFrame 2 [("Y", two_rows); ("Label", two_rows); ("x", two_rows)]%string.

Lemma inferred_target_priority_witness :
  exists c : string,
    infer_target_column labelled_frame = Some (Some c)
    /\ c ∈ column_names labelled_frame /\ lower c = "label"%string.
Proof.
  apply (inferred_target_priority labelled_frame ["target"%string]
           ["class"; "y"; "outcome"]%string "label" "Label").
  - reflexivity.
  - apply (bool_decide_unpack _). vm_compute. exact I.
  - reflexivity.
  - intros k' c Hk' Hc.
    apply list_elem_of_singleton in Hk' as ->.
    revert c Hc. apply Forall_forall. repeat constructor; discriminate.
Defined.

(** X23. Without a column of a well-known name, a frame without columns makes
    [infer_target_column] raise, and a frame without rows makes it return
    [None], whatever its last column is. *)
Theorem inference_without_names (df : DataFrame) :
  (forall k c, k ∈ target_names -> c ∈ column_names df -> lower c <> k) ->
  (column_names df = [] -> infer_target_column df = None)
  /\ (column_names df <> [] -> n_rows df = 0%nat ->
      infer_target_column df = Some None).
Proof.
  intros Hno.
  assert (E : first_known target_names (lower_map (column_names df)) = None).
  { apply first_known_None. intros k Hk. apply lower_map_None.
    intros c Hc. now apply Hno. }
  unfold infer_target_column. rewrite E. split.
  - intros ->. reflexivity.
  - intros Hne Hrows.
    destruct (last (column_names df)) as [l|] eqn:El.
    2:{ apply last_None in El. contradiction. }
    simpl. destruct (getitem (df_columns df) l) as [s|] eqn:Es.
    + simpl. now rewrite Hrows.
    + apply getitem_None in Es. exfalso. apply Es.
      apply last_Some in El as [l' El]. unfold column_names in El.
      rewrite El. apply elem_of_app. right. left.
Qed.

Lemma inference_without_names_witness :
  infer_target_column
    (mkDataFrame 0 [("a"%string, mkSeries DInt64 []); ("b"%string, mkSeries DInt64 [])])
  = Some None.
Proof.
  apply (inference_without_names
           (mkDataFrame 0 [("a"%string, mkSeries DInt64 []);
                           ("b"%string, mkSeries DInt64 [])])).
  - intros k c Hk Hc. revert k Hk. apply Forall_forall.
    revert c Hc. apply Forall_forall.
    repeat constructor; discriminate.
  - discriminate.
  - reflexivity.
Defined.

End InferenceProperties.

(** ** More on the orchestrator's loop *)

Section LoopProperties.

Import Orchestrator.

Variable fit_and_score : nat -> Profile -> string -> Modelling.estimator -> Modelling.Scores.
Variable now_iso : nat -> string.
Variable df : DataProfiler.DataFrame.
Variable ctx : RunContext.
Variable fp : string.

#[local] Abbreviation loop := (run_loop fit_and_score now_iso df ctx fp).

(** The notes a profile holds, the empty list when it has none. *)
Definition notes_list (p : Profile) : list string := get_default (notes p) [].

(** What a run of the loop from [s] to [s'] with [n] replans amounts to. *)
Record advanced (n : nat) (s s' : state) : Prop := mkAdvanced {
  adv_replans : replans s' = (replans s + n)%nat;
  adv_count : replan_count s' = replan_count s + Z.of_nat n;
  adv_plan : plan s' = plan s ++ replicate n "replan_attempt"%string;
  adv_notes : notes_list (profile s') = notes_list (profile s) ++ replicate n Reflector.replan_note;
  adv_log : log s `prefix_of` log s';
  adv_shape : shape_rows (profile s') = shape_rows (profile s)
              /\ shape_cols (profile s') = shape_cols (profile s);
  adv_ratio : imbalance_ratio (profile s') = imbalance_ratio (profile s);
  adv_path : Memory.path (memory s') = Memory.path (memory s);
  adv_others : forall other : string, other <> fp ->
      Memory.get_dataset_record (memory s') other
      = Memory.get_dataset_record (memory s) other;
}.

Lemma advanced_refl (s : state) : advanced 0 s s.
Proof.
  constructor; simpl; rewrite ?app_nil_r; try reflexivity; try lia; auto.
Qed.

Lemma replans_snoc_cycle (l : list event) (pl : list string)
    (r : Reflector.Reflection) :
  length (filter is_replan (l ++ [Reflected pl r])) = length (filter is_replan l).
Proof. rewrite filter_app, length_app. simpl. lia. Qed.

Lemma replans_snoc_replan (l : list event) (k : Z) :
  length (filter is_replan (l ++ [Replanning k])) = S (length (filter is_replan l)).
Proof. rewrite filter_app, length_app. simpl. lia. Qed.

Lemma run_loop_advances (fuel : nat) :
  forall (i : nat) (s s' : state),
    stopped (loop fuel i s) s' -> exists n : nat, advanced n s s'.
Proof.
  induction fuel as [|fuel IH]; intros i s s' Hstop.
  { destruct Hstop as [H|H]; discriminate H. }
  simpl in Hstop.
  destruct (Modelling.train_models _ _ _ _) as [results|].
  2:{ destruct Hstop as [H|H]; [discriminate H|]. injection H as <-.
      exists 0%nat. apply advanced_refl. }
  set (reflection := Reflector.reflect _ _ _) in Hstop.
  destruct (Memory.upsert_dataset_record _ _ _ _) as [[memory' fs']|] eqn:Eup.
  2:{ destruct Hstop as [H|H]; [discriminate H|]. injection H as <-.
      exists 0%nat. constructor; simpl; rewrite ?app_nil_r; try reflexivity;
        try lia; auto.
      - unfold replans. simpl. rewrite replans_snoc_cycle. lia.
      - now apply prefix_app_r. }
  assert (Hws := upsert_Some_well_shaped _ _ _ _ _ _ Eup).
  match type of Eup with
  | Memory.upsert_dataset_record _ _ ?r _ = _ =>
      destruct (upsert_spec (memory s) fp r (fs s) Hws)
        as (m1 & f1 & E1 & _ & Hpath & _ & _ & Hoth)
  end.
  rewrite Eup in E1. injection E1 as <- <-.
  assert (Hbase : advanced 0 s
            (mkState (replan_count s) (plan s) (profile s) memory' fs'
               (log s ++ [Reflected (plan s) reflection]))).
  { constructor; simpl; rewrite ?app_nil_r; try reflexivity; try lia; auto.
    - unfold replans. simpl. rewrite replans_snoc_cycle. lia.
    - now apply prefix_app_r. }
  destruct (negb (Reflector.should_replan reflection)).
  { destruct Hstop as [H|H]; [|discriminate H]. injection H as <-.
    now exists 0%nat. }
  simpl in Hstop.
  destruct (max_replans ctx <=? replan_count s).
  { destruct Hstop as [H|H]; [|discriminate H]. injection H as <-.
    now exists 0%nat. }
  apply IH in Hstop as [n Hn]. exists (S n).
  destruct Hn as [H1 H2 H3 H4 H5 H6 H7 H8 H9]. simpl in *.
  constructor; simpl.
  - rewrite H1. unfold replans. simpl. rewrite replans_snoc_replan, replans_snoc_cycle. lia.
  - rewrite H2. lia.
  - rewrite H3, <- app_assoc. reflexivity.
  - rewrite H4. unfold notes_list. simpl. rewrite <- app_assoc. reflexivity.
  - etransitivity; [|exact H5]. rewrite <- app_assoc. now apply prefix_app_r.
  - exact H6.
  - exact H7.
  - now rewrite H8.
  - intros other Hne. rewrite (H9 other Hne). now apply Hoth.
Qed.

(** X24. However the loop stops, its state has only grown: the replan counter
    went up by the number of replans logged, the plan is the plan it was
    entered with followed by one ["replan_attempt"] per replan, the notes
    of the profile by one replan note per replan, and the log extends the
    log it was entered with. *)
Theorem run_loop_only_appends (fuel i : nat) (s s' : state) :
  stopped (loop fuel i s) s' ->
  exists n : nat,
    replans s' = (replans s + n)%nat
    /\ replan_count s' = replan_count s + Z.of_nat n
    /\ plan s' = plan s ++ replicate n "replan_attempt"%string
    /\ notes_list (profile s')
       = notes_list (profile s) ++ replicate n Reflector.replan_note
    /\ log s `prefix_of` log s'.
Proof.
  intros H. apply run_loop_advances in H as [n [H1 H2 H3 H4 H5 _ _ _ _]].
  now exists n.
Qed.

(** X25. Replanning does not change what is trained: when the loop stops, the
    profile has the shape and the imbalance ratio it was entered with, and
    [select_models] proposes the same candidates for it. *)
Theorem run_loop_same_candidates (fuel i : nat) (s s' : state) :
  stopped (loop fuel i s) s' ->
  shape_rows (profile s') = shape_rows (profile s)
  /\ shape_cols (profile s') = shape_cols (profile s)
  /\ imbalance_ratio (profile s') = imbalance_ratio (profile s)
  /\ Modelling.select_models (profile s') (seed ctx)
     = Modelling.select_models (profile s) (seed ctx).
Proof.
  intros H. apply run_loop_advances in H as [n [_ _ _ _ _ [H1 H2] H3 _ _]].
  repeat split; try assumption.
  unfold Modelling.select_models. now rewrite H1, H2, H3.
Qed.

(** X26. The loop writes to the memory under the run's fingerprint only: the
    store keeps its path, and every other fingerprint reads as before. *)
Theorem run_loop_touches_own_record (fuel i : nat) (s s' : state) :
  stopped (loop fuel i s) s' ->
  Memory.path (memory s') = Memory.path (memory s)
  /\ forall other : string, other <> fp ->
       Memory.get_dataset_record (memory s') other
       = Memory.get_dataset_record (memory s) other.
Proof.
  intros H. apply run_loop_advances in H as [n [_ _ _ _ _ _ _ H1 H2]].
  now split.
Qed.

(** X27. When the loop ends normally, the memory has a record under the run's
    fingerprint, and the memory file holds the store's data. *)
Theorem run_loop_done_persists (fuel : nat) :
  forall (i : nat) (s s' : state),
    loop fuel i s = Done s' ->
    (exists r : json, Memory.get_dataset_record (memory s') fp = Some r
                      /\ r <> JNull)
    /\ fs s' !! Memory.path (memory s') = Some (Memory.Doc (Memory.data (memory s'))).
Proof.
  induction fuel as [|fuel IH]; intros i s s' H; [discriminate H|].
  simpl in H.
  destruct (Modelling.train_models _ _ _ _) as [results|]; [|discriminate H].
  set (reflection := Reflector.reflect _ _ _) in H.
  destruct (Memory.upsert_dataset_record _ _ _ _) as [[memory' fs']|] eqn:Eup;
    [|discriminate H].
  assert (Hws := upsert_Some_well_shaped _ _ _ _ _ _ Eup).
  match type of Eup with
  | Memory.upsert_dataset_record _ _ ?r _ = _ =>
      destruct (upsert_spec (memory s) fp r (fs s) Hws)
        as (m1 & f1 & E1 & _ & Hpath & Hfs & Hget & _)
  end.
  rewrite Eup in E1. injection E1 as <- <-.
  assert (Hbase :
    (exists r : json, Memory.get_dataset_record memory' fp = Some r /\ r <> JNull)
    /\ fs' !! Memory.path memory' = Some (Memory.Doc (Memory.data memory'))).
  { split; [eexists; split; [exact Hget|discriminate]|].
    rewrite Hfs, Hpath. apply lookup_insert_eq. }
  destruct (negb (Reflector.should_replan reflection)); [now injection H as <-|].
  simpl in H.
  destruct (max_replans ctx <=? replan_count s); [now injection H as <-|].
  now apply IH in H.
Qed.

End LoopProperties.

(** The state in which the sample run of two replans ends. *)
Definition sample_final : Orchestrator.state :=
  Eval vm_compute in
    match Orchestrator.run_loop poor_scores sample_clock sample_frame (sample_ctx 2)
            "fp_1" 3 0 sample_start with
    | Orchestrator.Done s => s
    | _ => sample_start
    end.

Lemma sample_run :
  Orchestrator.run_loop poor_scores sample_clock sample_frame (sample_ctx 2)
    "fp_1" 3 0 sample_start = Orchestrator.Done sample_final.
Proof. vm_compute. reflexivity. Qed.

Lemma run_loop_only_appends_witness :
  exists (s' : Orchestrator.state) (n : nat),
    Orchestrator.run_loop poor_scores sample_clock sample_frame (sample_ctx 2)
      "fp_1" 3 0 sample_start = Orchestrator.Done s'
    /\ Orchestrator.plan s'
       = Orchestrator.plan sample_start ++ replicate n "replan_attempt"%string.
Proof.
  destruct (run_loop_only_appends _ _ _ _ _ _ _ _ sample_final (or_introl sample_run))
    as (n & _ & _ & Hplan & _).
  exists sample_final, n. split; [exact sample_run|exact Hplan].
Defined.

Lemma run_loop_same_candidates_witness :
  exists s' : Orchestrator.state,
    Orchestrator.run_loop poor_scores sample_clock sample_frame (sample_ctx 2)
      "fp_1" 3 0 sample_start = Orchestrator.Done s'
    /\ Modelling.select_models (Orchestrator.profile s') 42
       = Modelling.select_models sample_profile 42.
Proof.
  exists sample_final. split; [exact sample_run|].
  exact (proj2 (proj2 (proj2
           (run_loop_same_candidates _ _ _ _ _ _ _ _ sample_final
              (or_introl sample_run))))).
Defined.

Lemma run_loop_touches_own_record_witness :
  exists s' : Orchestrator.state,
    Orchestrator.run_loop poor_scores sample_clock sample_frame (sample_ctx 2)
      "fp_1" 3 0 sample_start = Orchestrator.Done s'
    /\ Memory.path (Orchestrator.memory s') = "agent_memory.json"%string.
Proof.
  exists sample_final. split; [exact sample_run|].
  exact (proj1 (run_loop_touches_own_record _ _ _ _ _ _ _ _ sample_final
                  (or_introl sample_run))).
Defined.

Lemma run_loop_done_persists_witness :
  exists s' : Orchestrator.state,
    Orchestrator.run_loop poor_scores sample_clock sample_frame (sample_ctx 2)
      "fp_1" 3 0 sample_start = Orchestrator.Done s'
    /\ Orchestrator.fs s' !! Memory.path (Orchestrator.memory s')
       = Some (Memory.Doc (Memory.data (Orchestrator.memory s'))).
Proof.
  exists sample_final. split; [exact sample_run|].
  exact (proj2 (run_loop_done_persists _ _ _ _ _ _ _ _ _ sample_run)).
Defined.

(** ** The run as a whole *)

Section RunProperties.

Import Orchestrator.

Lemma get_well_shaped (self : Memory.JSONMemory) (k : string) :
  well_shaped self -> is_Some (Memory.get_dataset_record self k).
Proof.
  intros (m & Hm & Hd). unfold Memory.get_dataset_record. rewrite Hm.
  destruct Hd as [-> | [ds ->]]; simpl; eauto.
Qed.

Lemma create_plan_is_Some (p : Profile) (hint : json) :
  is_Some (Planner.create_plan p hint).
Proof. unfold Planner.create_plan. destruct (ge _ _); simpl; eauto. Qed.

(** X28. With a memory of the documented shape, [run] raises before its loop
    in two cases only: the target is not a column of the data, or the
    memory holds under the fingerprint of the data a value that is true
    and is not a dict, of which the log message of a memory hit reads
    [prev.get('best_model')]. *)
Theorem run_raises_iff
    (fit_and_score : nat -> Profile -> string -> Modelling.estimator -> Modelling.Scores)
    (now_iso : nat -> string) (hash : Z -> string -> Z) (salt : Z)
    (df : DataProfiler.DataFrame)
    (ctx : RunContext) (fuel : nat) (memory : Memory.JSONMemory) (fs : Memory.files) :
  well_shaped memory ->
  run fit_and_score now_iso hash salt df ctx fuel memory fs = None
  <-> target ctx ∉ DataProfiler.column_names df
      \/ exists prev : json,
           Memory.get_dataset_record memory
             (DataProfiler.dataset_fingerprint hash salt df (target ctx)) = Some prev
           /\ json_truthy prev = true
           /\ forall m : gmap string json, prev <> JObj m.
Proof.
  intros Hws. unfold run.
  destruct (DataProfiler.profile_dataset df (target ctx)) as [p|] eqn:Ep; simpl.
  - assert (Hcol : ~ (target ctx ∉ DataProfiler.column_names df)).
    { intros Hnot. apply getitem_None in Hnot.
      unfold DataProfiler.profile_dataset in Ep. now rewrite Hnot in Ep. }
    destruct (get_well_shaped memory
                (DataProfiler.dataset_fingerprint hash salt df (target ctx)) Hws)
      as [prev ->]. simpl.
    destruct (create_plan_is_Some p prev) as [pl Hpl].
    unfold memory_hit. destruct (json_truthy prev) eqn:Et.
    + destruct prev as [| | | | |m]; simpl; rewrite ?Hpl; simpl;
        try (split; [intros _; right; eexists; split; [reflexivity|];
                     split; [exact Et|discriminate]
                    |reflexivity]).
      split; [discriminate|].
      intros [Hnot|(prev & [= <-] & _ & Hno)]; [contradiction|].
      now destruct (Hno m).
    + simpl. rewrite Hpl. simpl. split; [discriminate|].
      intros [Hnot|(prev' & [= <-] & Ht & _)]; [contradiction|congruence].
  - split; [intros _|reflexivity]. left.
    apply getitem_None. unfold DataProfiler.profile_dataset in Ep.
    destruct (DataProfiler.getitem _ _) as [y|]; [|reflexivity].
    simpl in Ep. destruct (DataProfiler.is_classification_target y); discriminate Ep.
Qed.

(** A memory whose record for the sample data is a string. *)
Definition stale_memory : Memory.JSONMemory :=
  Memory.mkMemory "agent_memory.json"
    (JObj (<["datasets" :=
              JObj (<[DataProfiler.dataset_fingerprint sample_hash 7 sample_frame "y"
                      := JStr "RandomForest"]> ∅)]> ∅)).

Lemma run_raises_iff_witness :
  run poor_scores sample_clock sample_hash 7 sample_frame
    (mkRunContext "r" "t0" "d.csv" "z" "o" 42 0.2 1) 2
    (Memory.mkMemory "agent_memory.json" Memory.initial_data) ∅ = None
  /\ run poor_scores sample_clock sample_hash 7 sample_frame (sample_ctx 1) 2
       stale_memory ∅ = None.
Proof.
  split.
  - apply (run_raises_iff poor_scores sample_clock sample_hash 7 sample_frame
             (mkRunContext "r" "t0" "d.csv" "z" "o" 42 0.2 1) 2
             (Memory.mkMemory "agent_memory.json" Memory.initial_data) ∅).
    + apply initial_well_shaped.
    + left. apply (bool_decide_unpack _). vm_compute. exact I.
  - apply (run_raises_iff poor_scores sample_clock sample_hash 7 sample_frame
             (sample_ctx 1) 2 stale_memory ∅).
    + eexists. split; [reflexivity|]. right. eexists. apply lookup_insert_eq.
    + right. exists (JStr "RandomForest"). split; [|split].
      * unfold Memory.get_dataset_record, stale_memory. cbn [Memory.data].
        rewrite lookup_insert_eq. cbn [default from_option id].
        now rewrite lookup_insert_eq.
      * reflexivity.
      * discriminate.
Defined.

End RunProperties.

(** ** The objects of a replan *)

Section FreshnessProperties.

Import Store Reflector.

(** X30. The plan and the profile that [apply_replan_strategy] returns are new
    objects, different from each other and from every object the store
    had; the new profile has a new notes list and, but for the notes, the
    fields of the input profile. *)
Theorem apply_replan_strategy_fresh (h : heap) (lp ld : loc)
    (plan : list string) (d : ProfileOf loc) (ns : list string)
    (refl : Reflection) :
  h !! lp = Some (OList plan) -> h !! ld = Some (ODict d) ->
  notes_in h d = Some ns ->
  exists (lp' ld' ln' : loc) (h' : heap),
    apply_replan_strategy lp ld refl h = Some ((lp', ld'), h')
    /\ (lp' ∉ dom h) /\ (ld' ∉ dom h) /\ (ln' ∉ dom h)
    /\ lp' <> ld' /\ lp' <> lp /\ ld' <> ld /\ notes d <> Some ln'
    /\ h' !! ld' = Some (ODict (set_notes d (Some ln')))
    /\ dom h ⊆ dom h'.
Proof.
  intros Hp Hd Hn.
  destruct (apply_replan_strategy_spec h lp ld plan d ns refl Hp Hd Hn)
    as (lp' & ld' & ln' & h' & Hrun & F1 & F2 & F3 & Hframe & Hlp' & Hld' & Hln').
  exists lp', ld', ln', h'. split; [exact Hrun|].
  split; [now apply not_elem_of_dom|]. split; [now apply not_elem_of_dom|].
  split; [now apply not_elem_of_dom|].
  split; [intros ->; congruence|]. split; [intros ->; congruence|].
  split; [intros ->; congruence|]. split.
  { intros E. unfold notes_in in Hn. rewrite E, F3 in Hn. discriminate Hn. }
  split; [exact Hld'|].
  intros l Hl. apply elem_of_dom in Hl. apply elem_of_dom.
  now rewrite Hframe.
Qed.

Lemma apply_replan_strategy_fresh_witness :
  exists (lp' ld' ln' : loc) (h' : heap),
    apply_replan_strategy 1%positive 2%positive
      (mkReflection "needs_attention" None [] [] true) sample_heap
      = Some ((lp', ld'), h')
    /\ (lp' ∉ dom sample_heap) /\ (ld' ∉ dom sample_heap) /\ (ln' ∉ dom sample_heap)
    /\ lp' <> ld' /\ lp' <> 1%positive /\ ld' <> 2%positive
    /\ Some 3%positive <> Some ln'
    /\ h' !! ld' =
         Some (ODict (mkProfile 200 2 ["x"; "y"]%string "y" true (Val 9%Q) (Some ln')))
    /\ dom sample_heap ⊆ dom h'.
Proof.
  apply (apply_replan_strategy_fresh sample_heap 1%positive 2%positive
           ["profile_dataset"; "train_models"]%string
           (mkProfile 200 2 ["x"; "y"]%string "y" true (Val 9%Q) (Some 3%positive))
           ["Small dataset"%string]
           (mkReflection "needs_attention" None [] [] true));
    reflexivity.
Defined.

End FreshnessProperties.
